(** * Record clients of the accounting frontend

    A shallow embedding of the two abstract HTTP clients of the frontend,
    [DatabaseRecordClient] (result wrappers) and [APIClient] (nullable bare
    values), together with the fragment of JavaScript they run on: JSON
    values, property reads, truthiness, string conversion, exceptions, the
    console and the network. *)

From Stdlib Require Import ZArith QArith Qround List String Ascii Bool Lia
  DecimalString DecimalZ DecimalPos.
Import ListNotations.

Local Open Scope string_scope.
Local Open Scope Z_scope.

(** ** JavaScript values *)

Module Js.

(** What [response.json()] yields: a JSON document.  A string is a sequence
    of code units, one per character (code units below 256); a number is an
    integer that a JavaScript number holds exactly.  An object is its list of
    own properties, none of them callable. *)
#[warnings="-register-all"]
Inductive json : Type :=
| JNull
| JBool (b : bool)
| JNum (n : Z)
| JStr (s : string)
| JArr (elems : list json)
| JObj (props : list (string * json)).

(** A JavaScript value read out of a document: [None] is [undefined]. *)
Definition value : Type := option json.

(** A document is a value. *)
Definition defined (j : json) : value := Some j.
Coercion defined : json >-> value.

Inductive exn : Type :=
| NetworkError          (* the rejection of the global [fetch] *)
| SyntaxError           (* [response.json()] on a body that is not JSON *)
| TypeError             (* a read on null or undefined, a failed ToPrimitive *)
| RangeError            (* an array grown past 2^32 - 1 elements *)
| UserError (msg : string).  (* thrown by subclass code *)

(** The completion of an evaluation. *)
Inductive Outcome (A : Type) : Type :=
| Returned (a : A)
| Threw (e : exn).
Arguments Returned {A} a.
Arguments Threw {A} e.

Definition obind {A B} (o : Outcome A) (k : A -> Outcome B) : Outcome B :=
  match o with
  | Returned a => k a
  | Threw e => Threw e
  end.

Fixpoint assoc (name : string) (props : list (string * json)) : value :=
  match props with
  | [] => None
  | (k, v) :: rest => if String.eqb k name then Some v else assoc name rest
  end.

Definition hasOwn (name : string) (props : list (string * json)) : bool :=
  match assoc name props with Some _ => true | None => false end.

(** ToBoolean. *)
Definition truthy (j : json) : bool :=
  match j with
  | JNull => false
  | JBool b => b
  | JNum n => negb (n =? 0)
  | JStr s => negb (String.eqb s "")
  | JArr _ => true
  | JObj _ => true
  end.

Definition truthyV (v : value) : bool :=
  match v with Some j => truthy j | None => false end.

(** [v != null]: false on both [null] and [undefined]. *)
Definition notNullish (v : value) : bool :=
  match v with
  | None => false
  | Some JNull => false
  | Some _ => true
  end.

(** [j.name] for a name that no built-in prototype defines ([detail],
    [details], [results], [previous], [next]): the own property of an object,
    [undefined] on every other value, a TypeError on [null]. *)
Definition prop (j : json) (name : string) : Outcome value :=
  match j with
  | JNull => Threw TypeError
  | JObj props => Returned (assoc name props)
  | _ => Returned None
  end.

Definition chars (s : string) : list json :=
  map (fun c => JStr (String c EmptyString)) (list_ascii_of_string s).

Definition isEmptyList {A} (l : list A) : bool :=
  match l with [] => true | _ => false end.

(** Number to string: the decimal digits, as JavaScript prints a safe
    integer, one of absolute value at most 2^53 - 1. *)
Definition numberToString (n : Z) : string :=
  NilZero.string_of_int (Z.to_int n).

(** The integers that print that way: those a double holds next to both
    neighbours, up to 2^53 - 1 either side of zero. *)
Definition safeInteger (n : Z) : Prop := Z.abs n <= 9007199254740991.

(** The integer a decimal numeral denotes: digits, behind a minus sign if
    any. *)
Definition numeralValue (s : string) : option Z :=
  option_map Z.of_int (NilZero.int_of_string s).

(** ToString, as string concatenation applies it.  An array joins its
    elements with commas, null elements as the empty string.  An object
    inherits [Object.prototype.toString] unless an own [toString] property,
    never callable in a JSON document, shadows it: then no method yields a
    primitive and the conversion throws. *)
Fixpoint toString (j : json) : Outcome string :=
  match j with
  | JNull => Returned "null"
  | JBool true => Returned "true"
  | JBool false => Returned "false"
  | JNum n => Returned (numberToString n)
  | JStr s => Returned s
  | JArr elems =>
      let elem (e : json) : Outcome string :=
        match e with
        | JNull => Returned ""
        | _ => toString e
        end in
      (fix join (l : list json) : Outcome string :=
         match l with
         | [] => Returned ""
         | [e] => elem e
         | e :: rest =>
             obind (elem e) (fun s =>
             obind (join rest) (fun r => Returned (s ++ "," ++ r)))
         end) elems
  | JObj props =>
      if hasOwn "toString" props then Threw TypeError
      else Returned "[object Object]"
  end.

(** *** Numbers and array-likes *)

(** A Number as a comparison sees it: not a number, an infinity, or a real
    kept exact, the value a numeric string denotes before it is rounded to
    a double. *)
Inductive number : Type :=
| NaN
| Infinity (positive : bool)
| Real (q : Q).

(** The white space that StringToNumber strips: tab, line feed, vertical
    tab, form feed, carriage return, space and no-break space. *)
Definition isWhiteSpace (c : ascii) : bool :=
  let n := N_of_ascii c in
  ((9 <=? n) && (n <=? 13))%N || (n =? 32)%N || (n =? 160)%N.

Fixpoint dropWhile (f : ascii -> bool) (l : list ascii) : list ascii :=
  match l with
  | c :: rest => if f c then dropWhile f rest else l
  | [] => []
  end.

Definition trim (l : list ascii) : list ascii :=
  rev (dropWhile isWhiteSpace (rev (dropWhile isWhiteSpace l))).

Definition digitIn (base : Z) (c : ascii) : option Z :=
  let n := Z.of_N (N_of_ascii c) in
  let d :=
    if (48 <=? n) && (n <=? 57) then n - 48
    else if (97 <=? n) && (n <=? 102) then n - 87
    else if (65 <=? n) && (n <=? 70) then n - 55
    else 16 in
  if d <? base then Some d else None.

(** The longest prefix of digits of [l]: its value on top of [value], the
    number of digits on top of [count], and what follows. *)
Fixpoint digits (base : Z) (l : list ascii) (value count : Z)
  : Z * Z * list ascii :=
  match l with
  | c :: rest =>
      match digitIn base c with
      | Some d => digits base rest (value * base + d) (count + 1)
      | None => (value, count, l)
      end
  | [] => (value, count, [])
  end.

Definition isEmpty (l : list ascii) : bool :=
  match l with [] => true | _ => false end.

(** ExponentPart, or nothing: [e] or [E], a sign if any, and digits to
    the end. *)
Definition exponentPart (l : list ascii) : option Z :=
  match l with
  | [] => Some 0
  | c :: rest =>
      if Ascii.eqb c "e" || Ascii.eqb c "E" then
        let signed :=
          match rest with
          | "+"%char :: r => (1, r)
          | "-"%char :: r => (-1, r)
          | _ => (1, rest)
          end in
        let '(value, count, tail) := digits 10 (snd signed) 0 0 in
        if (0 <? count) && isEmpty tail then Some (fst signed * value) else None
      else None
  end.

(** StrUnsignedDecimalLiteral but for [Infinity]: digits, a point and more
    digits, with a digit on one side at least, and an exponent if any. *)
Definition unsignedDecimal (l : list ascii) : option Q :=
  let '(whole, wholeCount, afterWhole) := digits 10 l 0 0 in
  let '(mantissa, fractionCount, afterFraction) :=
    match afterWhole with
    | "."%char :: r => digits 10 r whole 0
    | _ => (whole, 0, afterWhole)
    end in
  if (0 <? wholeCount) || (0 <? fractionCount) then
    match exponentPart afterFraction with
    | Some e =>
        Some (Qmult (inject_Z mantissa)
                (Qpower (inject_Z 10) (e - fractionCount)))
    | None => None
    end
  else None.

(** NonDecimalIntegerLiteral: [0x], [0o] or [0b] and digits to the end. *)
Definition nonDecimal (l : list ascii) : option Q :=
  match l with
  | "0"%char :: c :: rest =>
      let base :=
        if Ascii.eqb c "x" || Ascii.eqb c "X" then 16
        else if Ascii.eqb c "o" || Ascii.eqb c "O" then 8
        else if Ascii.eqb c "b" || Ascii.eqb c "B" then 2
        else 0 in
      let '(value, count, tail) := digits base rest 0 0 in
      if (0 <? count) && isEmpty tail then Some (inject_Z value) else None
  | _ => None
  end.

(** StringToNumber: white space off both ends, then nothing (zero), a
    literal in another base, or a signed decimal literal or [Infinity];
    anything else is not a number. *)
Definition stringToNumber (s : string) : number :=
  let l := trim (list_ascii_of_string s) in
  if isEmpty l then Real 0
  else
    match nonDecimal l with
    | Some q => Real q
    | None =>
        let signed :=
          match l with
          | "+"%char :: r => (false, r)
          | "-"%char :: r => (true, r)
          | _ => (false, l)
          end in
        if String.eqb (string_of_list_ascii (snd signed)) "Infinity"
        then Infinity (negb (fst signed))
        else
          match unsignedDecimal (snd signed) with
          | Some q => Real (if fst signed then Qopp q else q)
          | None => NaN
          end
    end.

(** ToNumber, as a relational comparison applies it.  An array or an
    object goes through its string first. *)
Definition toNumber (v : value) : Outcome number :=
  match v with
  | None => Returned NaN
  | Some JNull => Returned (Real 0)
  | Some (JBool b) => Returned (Real (if b then 1 else 0))
  | Some (JNum n) => Returned (Real (inject_Z n))
  | Some (JStr s) => Returned (stringToNumber s)
  | Some j => obind (toString j) (fun s => Returned (stringToNumber s))
  end.

(** [index < n] for an index from 0 to 2^32.  The double nearest to a
    real exceeds the index exactly when the real exceeds the midpoint
    between the index and the next double, a tie going to the index. *)
Definition lessThanIndex (index : Z) (n : number) : bool :=
  match n with
  | NaN => false
  | Infinity positive => positive
  | Real q =>
      let midpoint :=
        if index =? 0 then Qpower (inject_Z 2) (-1075)
        else Qplus (inject_Z index)
               (Qpower (inject_Z 2) (Z.log2 index - 53)) in
      negb (Qle_bool q midpoint)
  end.

(** [x?.length > 0]: false behind the optional chain when [x] is null or
    undefined; arrays and strings have their length; an object has the
    [length] it owns, if any; a number or a boolean has none. *)
Definition lengthPositive (x : value) : Outcome bool :=
  match x with
  | None | Some JNull => Returned false
  | Some (JArr elems) => Returned (negb (isEmptyList elems))
  | Some (JStr s) => Returned (negb (String.eqb s ""))
  | Some (JNum _) | Some (JBool _) => Returned false
  | Some (JObj props) =>
      obind (toNumber (assoc "length" props)) (fun n =>
      Returned (lessThanIndex 0 n))
  end.

(** [x[0]] on a value that is neither null nor undefined. *)
Definition first (x : json) : value :=
  match x with
  | JArr elems => hd_error elems
  | JStr s => hd_error (chars s)
  | JObj props => assoc "0" props
  | _ => None
  end.

(** As many rounds of [step] as [n] says, up to the first result. *)
Fixpoint rounds {S R : Type} (n : positive) (step : S -> S + R) (s : S)
  : S + R :=
  match n with
  | xH => step s
  | xO n' =>
      match rounds n' step s with
      | inl s' => rounds n' step s'
      | inr r => inr r
      end
  | xI n' =>
      match step s with
      | inl s1 =>
          match rounds n' step s1 with
          | inl s2 => rounds n' step s2
          | inr r => inr r
          end
      | inr r => inr r
      end
  end.
Arguments rounds : simpl never.

(** [String(v)] inside a template literal or a [+] with a string, where the
    operand is a string from the configuration or [undefined]. *)
Definition optionToString (s : option string) : string :=
  match s with Some x => x | None => "undefined" end.

End Js.
Export Js.

(** ** The runtime: session provider, network, console *)

Module Response.
(** A completed HTTP exchange as the clients observe it.  [json] is the
    result of [response.json()]: [None] when the body is not a JSON
    document and the call rejects. *)
Record t : Type := { status : Z; json : option Js.json }.

(** [response.ok]: the status is in the range 200-299. *)
Definition ok (r : t) : bool := (200 <=? status r) && (status r <=? 299).
End Response.

Module Runtime.

Record User : Type := { token : string }.
Record Session : Type := { user : User }.

(** The second argument of the global [fetch]. *)
Record RequestInit : Type := {
  method : option string;
  headers : list (string * string);
  body : option string;
  cache : option string
}.

(** The method a request goes out with: GET unless the init names one. *)
Definition requestMethod (init : RequestInit) : string :=
  match method init with Some m => m | None => "GET" end.

(** Everything outside the client: the build-time configuration, the session
    provider ([None]: no session) and the network ([None]: the request fails
    before a response exists and [fetch] rejects). *)
Record Env : Type := {
  NEXT_PUBLIC_BACKEND_DOMAIN : option string;
  getSession : option Session;
  network : string -> RequestInit -> option Response.t
}.

Inductive Event : Type :=
| ConsoleError (msg : string)
| HttpRequest (url : string) (init : RequestInit).

Definition Trace : Type := list Event.

(** Computations: an outcome and the events emitted so far, oldest first. *)
Definition M (A : Type) : Type := Trace -> Outcome A * Trace.

Definition ret {A} (a : A) : M A := fun tr => (Returned a, tr).

Definition bind {A B} (m : M A) (k : A -> M B) : M B :=
  fun tr =>
    match m tr with
    | (Returned a, tr') => k a tr'
    | (Threw e, tr') => (Threw e, tr')
    end.

Definition lift {A} (o : Outcome A) : M A := fun tr => (o, tr).

(** [try { m } catch (error) { handler }]. *)
Definition tryCatch {A} (m : M A) (handler : exn -> M A) : M A :=
  fun tr =>
    match m tr with
    | (Threw e, tr') => handler e tr'
    | r => r
    end.

Definition console_error (msg : string) : M unit :=
  fun tr => (Returned tt, (tr ++ [ConsoleError msg])%list).

(** The global [fetch(url, init)]. *)
Definition fetch (env : Env) (url : string) (init : RequestInit)
  : M Response.t :=
  fun tr =>
    match network env url init with
    | Some response => (Returned response, (tr ++ [HttpRequest url init])%list)
    | None => (Threw NetworkError, (tr ++ [HttpRequest url init])%list)
    end.

(** [await response.json()]. *)
Definition awaitJson (response : Response.t) : M Js.json :=
  lift (match Response.json response with
        | Some j => Returned j
        | None => Threw SyntaxError
        end).

Definition run {A} (m : M A) : Outcome A * Trace := m [].

End Runtime.
Export Runtime.

Declare Scope js_scope.
Delimit Scope js_scope with js.
Notation "x <- m ;; k" := (bind m (fun x => k))
  (at level 61, m at next level, right associativity) : js_scope.
Notation "m ;;; k" := (bind m (fun _ => k))
  (at level 61, right associativity) : js_scope.
Local Open Scope js_scope.

(** ** URLSearchParams *)

Module URLSearchParams.

Definition isDigit (n : N) : bool := ((48 <=? n) && (n <=? 57))%N.
Definition isUpper (n : N) : bool := ((65 <=? n) && (n <=? 90))%N.
Definition isLower (n : N) : bool := ((97 <=? n) && (n <=? 122))%N.

(** The bytes the application/x-www-form-urlencoded serializer leaves as
    they are: ASCII alphanumerics and [*], [-], [.], [_]. *)
Definition unreserved (n : N) : bool :=
  isDigit n || isUpper n || isLower n
  || (n =? 42)%N || (n =? 45)%N || (n =? 46)%N || (n =? 95)%N.

Definition hexDigit (n : N) : ascii :=
  ascii_of_N (if (n <? 10)%N then 48 + n else 55 + n)%N.

Definition percentEncode (byte : N) : string :=
  String "%" (String (hexDigit (byte / 16)) (String (hexDigit (byte mod 16)) "")).

(** UTF-8 of one code unit below 256. *)
Definition utf8 (n : N) : list N :=
  if (n <? 128)%N then [n] else [192 + n / 64; 128 + n mod 64]%N.

Definition encodeUnit (c : ascii) : string :=
  let n := N_of_ascii c in
  if (n =? 32)%N then "+"
  else if unreserved n then String c ""
  else String.concat "" (map percentEncode (utf8 n)).

Fixpoint encode (s : string) : string :=
  match s with
  | EmptyString => ""
  | String c rest => encodeUnit c ++ encode rest
  end.

(** [new URLSearchParams(record)]: the name-value pairs in property order. *)
Definition t : Type := list (string * string).

(** The string a template literal makes of the parameters. *)
Definition toString (params : t) : string :=
  String.concat "&" (map (fun p => encode (fst p) ++ "=" ++ encode (snd p)) params).

(** *** Reading a query string back

    The parser of the same format, as the receiving side runs it: split on
    [&], split each piece at its first [=], turn [+] into a space, undo the
    percent-encoding and read the bytes as UTF-8. *)

Definition hexValue (c : ascii) : option N :=
  let n := N_of_ascii c in
  if isDigit n then Some (n - 48)%N
  else if ((65 <=? n) && (n <=? 70))%N then Some (n - 55)%N
  else if ((97 <=? n) && (n <=? 102))%N then Some (n - 87)%N
  else None.

(** The bytes of a piece: [+] is a space, [%] and two hexadecimal digits
    are a byte, a [%] before anything else stands for itself. *)
Fixpoint percentDecode (s : string) : list N :=
  match s with
  | EmptyString => []
  | String c rest =>
      if Ascii.eqb c "%" then
        match rest with
        | String high (String low rest') =>
            match hexValue high, hexValue low with
            | Some h, Some l => (16 * h + l)%N :: percentDecode rest'
            | _, _ => 37%N :: percentDecode rest
            end
        | _ => 37%N :: percentDecode rest
        end
      else if Ascii.eqb c "+" then 32%N :: percentDecode rest
      else N_of_ascii c :: percentDecode rest
  end.

(** UTF-8 read back into code units; nothing when the text holds a code
    point that a string here cannot hold, one beyond 255 or the
    replacement character of an ill-formed sequence. *)
Fixpoint utf8Decode (bytes : list N) : option string :=
  match bytes with
  | [] => Some EmptyString
  | b :: rest =>
      if (b <? 128)%N then
        option_map (String (ascii_of_N b)) (utf8Decode rest)
      else if ((b =? 194) || (b =? 195))%N then
        match rest with
        | c :: rest' =>
            if ((128 <=? c) && (c <=? 191))%N then
              option_map (String (ascii_of_N ((b - 192) * 64 + (c - 128))))
                (utf8Decode rest')
            else None
        | [] => None
        end
      else None
  end.

Definition decode (s : string) : option string :=
  utf8Decode (percentDecode s).

(** The pieces of [s] between the separators. *)
Fixpoint splitOn (sep : ascii) (s : string) : list string :=
  match s with
  | EmptyString => [EmptyString]
  | String c rest =>
      if Ascii.eqb c sep then EmptyString :: splitOn sep rest
      else
        match splitOn sep rest with
        | piece :: pieces => String c piece :: pieces
        | [] => [String c EmptyString]
        end
  end.

(** A piece cut at its first [=]; all of it is the name when it has
    none. *)
Fixpoint nameValue (s : string) : string * string :=
  match s with
  | EmptyString => (EmptyString, EmptyString)
  | String c rest =>
      if Ascii.eqb c "=" then (EmptyString, rest)
      else (String c (fst (nameValue rest)), snd (nameValue rest))
  end.

Fixpoint parsePieces (pieces : list string) : option t :=
  match pieces with
  | [] => Some []
  | piece :: rest =>
      if String.eqb piece "" then parsePieces rest
      else
        match decode (fst (nameValue piece)), decode (snd (nameValue piece)),
              parsePieces rest with
        | Some name, Some value, Some params => Some ((name, value) :: params)
        | _, _, _ => None
        end
  end.

Definition parse (query : string) : option t :=
  parsePieces (splitOn "&" query).

End URLSearchParams.

(** ** Models the clients depend on *)

Module MultiRecordResult.
(** Modelled from the spec: the class [MultiRecordResult] is imported from
    [@/models/MultiRecordResult], outside the sources at hand.  A result is
    either [{status, records, page, hasPreviousPage, hasNextPage}] or
    [{status, errorMessage}], built by two named factory operations and
    never both populated. *)
Inductive t (T : Type) : Type :=
| asSuccessResult (status : Z) (records : list T) (page : Z)
    (hasPreviousPage hasNextPage : bool)
| asErrorResult (status : Z) (errorMessage : value).
Arguments asSuccessResult {T}.
Arguments asErrorResult {T}.
End MultiRecordResult.

Module SingleRecordResult.
(** Modelled from the spec: the class [SingleRecordResult] is imported from
    [@/models/SingleRecordResult]; either [{status, record}] or
    [{status, errorMessage}], with the same exclusivity. *)
Inductive t (T : Type) : Type :=
| asSuccessResult (status : Z) (record : T)
| asErrorResult (status : Z) (errorMessage : value).
Arguments asSuccessResult {T}.
Arguments asErrorResult {T}.
End SingleRecordResult.

(** Modelled from the spec: the class [SortBy] is imported from
    [@/query/SortBy]; a field name plus a direction.  The client reads the
    field and asks for the direction as a string. *)
Record SortBy : Type := { field : string; getDirectionAsString : string }.

(** Modelled from the spec: the global type [DatabaseRecord] is declared
    outside the sources at hand; any domain entity with at least a unique
    integer identifier, exchanged as JSON.  [JSON_stringify] is
    [JSON.stringify] on records of the type. *)
Class DatabaseRecord (T : Type) : Type := {
  id : T -> Z;
  JSON_stringify : T -> string
}.

(** The two abstract methods a concrete client supplies.  [parse] is
    [this.parse(record)] on a document; [parseUndefined] is
    [this.parse(undefined)], what the method makes of a missing entry. *)
Class RecordClient (T : Type) : Type := {
  getEndpoint : string;
  parse : json -> Outcome T;
  parseUndefined : Outcome T
}.

(** ** The loop over an array-like *)

Section ArrayLike.
Context {T : Type} {client_T : RecordClient T}.

(** [this.parse(record)] on whatever an index yields. *)
Definition parseV (record : value) : Outcome T :=
  match record with
  | Some j => parse j
  | None => parseUndefined
  end.

(** One round of
    [for (index ...; index < results.length; index++)
       records.push(this.parse(results[index]))]
    over an object [results] whose [length] converted to [length]: the
    test, the read of the property named by the index, the call and the
    push, which an array refuses once it holds 2^32 - 1 elements. *)
Definition pushEntry (results : list (string * json)) (length : number)
    (state : Z * list T) : (Z * list T) + Outcome (list T) :=
  let '(index, records) := state in
  if lessThanIndex index length then
    match parseV (assoc (numberToString index) results) with
    | Returned record =>
        if index =? 4294967295 then inr (Threw RangeError)
        else inl (index + 1, (records ++ [record])%list)
    | Threw e => inr (Threw e)
    end
  else inr (Returned records).

(** The loop over an object that owns, or lacks, a [length]. *)
Definition parseArrayLike (results : list (string * json)) : Outcome (list T) :=
  obind (toNumber (assoc "length" results)) (fun length =>
  match rounds 4294967296 (pushEntry results length) (0, []) with
  | inr outcome => outcome
  | inl _ => Threw RangeError
  end).

End ArrayLike.
Arguments parseArrayLike : simpl never.

(** ** DatabaseRecordClient *)

Module DatabaseRecordClient.
Section Client.
Context {T : Type} {record_T : DatabaseRecord T} {client_T : RecordClient T}.
Variable env : Env.

Definition domain : option string := NEXT_PUBLIC_BACKEND_DOMAIN env.

Definition getAccessToken : M string :=
  match getSession env with
  | None =>
      console_error "Could not get session" ;;;
      ret ""
  | Some session => ret (token (user session))
  end.

(** [for (index ...) records.push(this.parse(json.results[index]))]. *)
Fixpoint parseEach (records : list T) (entries : list json)
  : Outcome (list T) :=
  match entries with
  | [] => Returned records
  | record :: rest =>
      obind (parse record) (fun r => parseEach (records ++ [r])%list rest)
  end.

(** The loop of [fetch] by the shape of [results]: an array and a string
    yield their elements, a number or a boolean has no length and yields
    nothing, an object is read through its [length], and [length] cannot be
    read off null or undefined. *)
Definition parseResults (results : value) : Outcome (list T) :=
  match results with
  | None | Some JNull => Threw TypeError
  | Some (JArr entries) => parseEach [] entries
  | Some (JStr s) => parseEach [] (chars s)
  | Some (JNum _) | Some (JBool _) => Returned []
  | Some (JObj props) => parseArrayLike props
  end.

(** The message of an HTTP-level failure; [fetch] and [submit] carry the
    same statements:
    [var error = "Unknown error"
     if (json.detail) error = json.detail
     else if (json.details?.length > 0) error = json.details[0]]. *)
Definition errorOf (json : json) : Outcome value :=
  obind (prop json "detail") (fun detail =>
  let otherwise : Outcome value :=
    obind (prop json "details") (fun details =>
    obind (lengthPositive details) (fun positive =>
    if positive then
      Returned match details with Some ds => first ds | None => None end
    else Returned (Some (JStr "Unknown error")))) in
  match detail with
  | Some d => if truthy d then Returned (Some d) else otherwise
  | None => otherwise
  end).

Definition fetch (sortBy : SortBy) (page : option Z)
  : M (MultiRecordResult.t T) :=
  let page := match page with Some p => p | None => 1 end in
  token <- getAccessToken ;;
  let searchParams : URLSearchParams.t :=
    [ ("sortField", field sortBy);
      ("sortDir", getDirectionAsString sortBy);
      ("page", numberToString page) ] in
  let url :=
    optionToString domain ++ getEndpoint ++ "?"
    ++ URLSearchParams.toString searchParams in
  attempt <-
    tryCatch
      (response <-
         Runtime.fetch env url
           {| method := None;
              headers := [("Authorization", "Token " ++ token)];
              body := None;
              cache := Some "no-store" |} ;;
       ret (inl response))
      (fun error =>
         ret (inr (MultiRecordResult.asErrorResult 503
                     (JStr "Could not connect to the API")))) ;;
  match attempt with
  | inr result => ret result
  | inl response =>
      json <- awaitJson response ;;
      if negb (Response.status response =? 200) then
        error <- lift (errorOf json) ;;
        ret (MultiRecordResult.asErrorResult (Response.status response) error)
      else
        results <- lift (prop json "results") ;;
        records <- lift (parseResults results) ;;
        previous <- lift (prop json "previous") ;;
        next <- lift (prop json "next") ;;
        let hasPreviousPage := notNullish previous in
        let hasNextPage := notNullish next in
        ret (MultiRecordResult.asSuccessResult (Response.status response)
               records page hasPreviousPage hasNextPage)
  end.

Definition get (id : Z) : M (SingleRecordResult.t T) :=
  token <- getAccessToken ;;
  let url := optionToString domain ++ getEndpoint ++ numberToString id ++ "/" in
  attempt <-
    tryCatch
      (response <-
         Runtime.fetch env url
           {| method := None;
              headers := [("Authorization", "Token " ++ token)];
              body := None;
              cache := Some "no-store" |} ;;
       ret (inl response))
      (fun error =>
         ret (inr (SingleRecordResult.asErrorResult 503
                     (JStr "Could not connect to the API")))) ;;
  match attempt with
  | inr result => ret result
  | inl response =>
      json <- awaitJson response ;;
      if negb (Response.status response =? 200) then
        detail <- lift (prop json "detail") ;;
        let error :=
          match detail with
          | None | Some JNull => JStr "Unknown error"
          | Some d => d
          end in
        ret (SingleRecordResult.asErrorResult (Response.status response) error)
      else
        newRecord <- lift (parse json) ;;
        ret (SingleRecordResult.asSuccessResult (Response.status response)
               newRecord)
  end.

Definition submit (record : T) (url : string) (method : string)
  : M (SingleRecordResult.t T) :=
  token <- getAccessToken ;;
  attempt <-
    tryCatch
      (response <-
         Runtime.fetch env url
           {| method := Some method;
              headers := [("Content-Type", "application/json");
                          ("Authorization", "Token " ++ token)];
              body := Some (JSON_stringify record);
              cache := None |} ;;
       ret (inl response))
      (fun error =>
         ret (inr (SingleRecordResult.asErrorResult 503
                     (JStr "Could not connect to API")))) ;;
  match attempt with
  | inr result => ret result
  | inl response =>
      json <- awaitJson response ;;
      if negb (Response.status response =? 200)
         && negb (Response.status response =? 201) then
        error <- lift (errorOf json) ;;
        ret (SingleRecordResult.asErrorResult (Response.status response) error)
      else
        newRecord <- lift (parse json) ;;
        ret (SingleRecordResult.asSuccessResult (Response.status response)
               newRecord)
  end.

Definition post (record : T) : M (SingleRecordResult.t T) :=
  let url := optionToString domain ++ getEndpoint in
  submit record url "POST".

Definition put (record : T) : M (SingleRecordResult.t T) :=
  let url :=
    optionToString domain ++ getEndpoint ++ numberToString (id record) ++ "/" in
  submit record url "PUT".

Definition delete (id : Z) : M (option Response.t) :=
  token <- getAccessToken ;;
  let url := optionToString domain ++ getEndpoint ++ numberToString id ++ "/" in
  tryCatch
    (response <-
       Runtime.fetch env url
         {| method := Some "DELETE";
            headers := [("Authorization", "Token " ++ token)];
            body := None;
            cache := None |} ;;
     ret (Some response))
    (fun error => ret None).

End Client.
End DatabaseRecordClient.

(** ** APIClient *)

Module APIClient.
Section Client.
Context {T : Type} {record_T : DatabaseRecord T} {client_T : RecordClient T}.
Variable env : Env.

Definition domain : option string := NEXT_PUBLIC_BACKEND_DOMAIN env.

Definition getAccessToken : M string :=
  match getSession env with
  | None =>
      console_error "Could not get session" ;;;
      ret ""
  | Some session => ret (token (user session))
  end.

Fixpoint parseEach (records : list T) (entries : list json)
  : Outcome (list T) :=
  match entries with
  | [] => Returned records
  | record :: rest =>
      obind (parse record) (fun r => parseEach (records ++ [r])%list rest)
  end.

(** The loop of [fetch] by the shape of [results], which is truthy here. *)
Definition parseResults (results : value) : Outcome (list T) :=
  match results with
  | None | Some JNull => Threw TypeError
  | Some (JArr entries) => parseEach [] entries
  | Some (JStr s) => parseEach [] (chars s)
  | Some (JNum _) | Some (JBool _) => Returned []
  | Some (JObj props) => parseArrayLike props
  end.

Definition fetch : M (list T) :=
  token <- getAccessToken ;;
  let url := optionToString domain ++ getEndpoint in
  response <-
    Runtime.fetch env url
      {| method := None;
         headers := [("Authorization", "Token " ++ token)];
         body := None;
         cache := Some "no-store" |} ;;
  if negb (Response.ok response) then
    console_error "Response not OK" ;;;
    ret []
  else
    data <- awaitJson response ;;
    if negb (truthy data) then
      console_error "Data was NULL" ;;;
      ret []
    else
      detail <- lift (prop data "detail") ;;
      let rest : M (list T) :=
        results <- lift (prop data "results") ;;
        if negb (truthyV results) then
          console_error "No results" ;;;
          ret []
        else
          records <- lift (parseResults results) ;;
          ret records in
      match detail with
      | Some d =>
          if truthy d then
            text <- lift (toString d) ;;
            console_error ("data.detail: " ++ text) ;;;
            ret []
          else rest
      | None => rest
      end.

Definition get (id : Z) : M (option T) :=
  token <- getAccessToken ;;
  let url := optionToString domain ++ getEndpoint ++ numberToString id ++ "/" in
  response <-
    Runtime.fetch env url
      {| method := None;
         headers := [("Authorization", "Token " ++ token)];
         body := None;
         cache := Some "no-store" |} ;;
  if negb (Response.ok response) then
    console_error "Response not OK" ;;;
    ret None
  else
    data <- awaitJson response ;;
    if negb (truthy data) then
      console_error "Data was NULL" ;;;
      ret None
    else
      record <- lift (parse data) ;;
      ret (Some record).

(** [post] and [put] hand back [data] itself, the document the server
    answered with, not a parsed record. *)
Definition post (record : T) : M (option json) :=
  token <- getAccessToken ;;
  let url := optionToString domain ++ getEndpoint in
  response <-
    Runtime.fetch env url
      {| method := Some "POST";
         headers := [("Content-Type", "application/json");
                     ("Authorization", "Token " ++ token)];
         body := Some (JSON_stringify record);
         cache := None |} ;;
  if negb (Response.ok response) then
    console_error "Response not OK" ;;;
    ret None
  else
    data <- awaitJson response ;;
    if negb (truthy data) then
      console_error "Data was NULL" ;;;
      ret None
    else ret (Some data).

Definition put (record : T) : M (option json) :=
  token <- getAccessToken ;;
  let url :=
    optionToString domain ++ getEndpoint ++ numberToString (id record) ++ "/" in
  response <-
    Runtime.fetch env url
      {| method := Some "PUT";
         headers := [("Content-Type", "application/json");
                     ("Authorization", "Token " ++ token)];
         body := Some (JSON_stringify record);
         cache := None |} ;;
  if negb (Response.ok response) then
    console_error "Response not OK" ;;;
    ret None
  else
    data <- awaitJson response ;;
    if negb (truthy data) then
      console_error "Data was NULL" ;;;
      ret None
    else ret (Some data).

End Client.
End APIClient.

(** ** A concrete client, for running the model

    [ProjectEntry] reads [project.id] and [project.name]; a project client
    parses documents of that shape. *)

Module ProjectClient.

Record Project : Type := { project_id : Z; name : string }.

Definition dq : string := String (ascii_of_N 34) "".

(** A code unit inside a JSON string: the quote and the backslash behind
    a backslash, the control characters by their letter or as [\u00xx],
    anything else as it is. *)
Definition quoteUnit (c : ascii) : string :=
  let n := N_of_ascii c in
  if (n =? 34)%N then String "\" dq
  else if (n =? 92)%N then "\\"
  else if (n =? 8)%N then "\b"
  else if (n =? 9)%N then "\t"
  else if (n =? 10)%N then "\n"
  else if (n =? 12)%N then "\f"
  else if (n =? 13)%N then "\r"
  else if (n <? 32)%N then
    "\u00" ++ String (if (n <? 16)%N then "0" else "1")
                 (String (ascii_of_N (let d := (n mod 16)%N in
                                      if (d <? 10)%N then 48 + d else 87 + d)%N)
                    "")
  else String c "".

Fixpoint quoteUnits (s : string) : string :=
  match s with
  | EmptyString => ""
  | String c rest => quoteUnit c ++ quoteUnits rest
  end.

#[export] Instance project_record : DatabaseRecord Project := {
  id := project_id;
  JSON_stringify p :=
    "{" ++ dq ++ "id" ++ dq ++ ":" ++ numberToString (project_id p) ++ ","
    ++ dq ++ "name" ++ dq ++ ":" ++ dq ++ quoteUnits (name p) ++ dq ++ "}"
}.

#[export] Instance project_client : RecordClient Project := {
  getEndpoint := "/projects/";
  parse j :=
    match j with
    | JObj props =>
        match assoc "id" props, assoc "name" props with
        | Some (JNum n), Some (JStr s) =>
            Returned {| project_id := n; name := s |}
        | _, _ => Threw (UserError "not a project")
        end
    | _ => Threw (UserError "not a project")
    end;
  parseUndefined := Threw (UserError "not a project")
}.

Definition backend : option string := Some "https://api.example.org".

Definition signedIn : option Session :=
  Some {| user := {| token := "s3cr3t" |} |}.

(** A network on which every request is answered with [response]. *)
Definition answering (response : Response.t) : Env :=
  {| NEXT_PUBLIC_BACKEND_DOMAIN := backend;
     getSession := signedIn;
     network := fun _ _ => Some response |}.

(** A network on which no request completes. *)
Definition offline : Env :=
  {| NEXT_PUBLIC_BACKEND_DOMAIN := backend;
     getSession := signedIn;
     network := fun _ _ => None |}.

(** No session, every request answered with [response]. *)
Definition signedOut (response : Response.t) : Env :=
  {| NEXT_PUBLIC_BACKEND_DOMAIN := backend;
     getSession := None;
     network := fun _ _ => Some response |}.

Definition byDateDesc : SortBy :=
  {| field := "date"; getDirectionAsString := "desc" |}.

Definition house : Project := {| project_id := 7; name := "House" |}.

Definition houseDoc : json := JObj [("id", JNum 7); ("name", JStr "House")].

(** A first page of projects: nothing before it, more after it. *)
Definition firstPage : Response.t :=
  {| Response.status := 200;
     Response.json :=
       Some (JObj [("results", JArr [houseDoc]);
                   ("previous", JNull);
                   ("next", JStr "https://api.example.org/projects/?page=2")]) |}.

(** A last page: something before it, nothing after it. *)
Definition lastPage : Response.t :=
  {| Response.status := 200;
     Response.json :=
       Some (JObj [("results", JArr [houseDoc]);
                   ("previous", JStr "https://api.example.org/projects/?page=1");
                   ("next", JNull)]) |}.

(** A refusal that names its reason in [details] only. *)
Definition notFound : Response.t :=
  {| Response.status := 404;
     Response.json := Some (JObj [("details", JArr [JStr "Not found."])]) |}.

(** A success status over an empty object. *)
Definition emptyObject : Response.t :=
  {| Response.status := 200; Response.json := Some (JObj []) |}.

(** An OK response that carries both a [detail] and [results]. *)
Definition detailAndResults (detail : json) : Response.t :=
  {| Response.status := 200;
     Response.json :=
       Some (JObj [("detail", detail); ("results", JArr [houseDoc])]) |}.

End ProjectClient.

(** ** Observations

    What the properties below speak of: the requests in a trace, the token
    and the request each operation sends, and the shapes of a response. *)

Section Observations.
Context {T : Type} {record_T : DatabaseRecord T} {client_T : RecordClient T}.
Variable env : Env.

(** The HTTP requests of a trace, in order. *)
Fixpoint requests (tr : Trace) : list (string * RequestInit) :=
  match tr with
  | [] => []
  | HttpRequest url init :: rest => (url, init) :: requests rest
  | ConsoleError _ :: rest => requests rest
  end.

(** A computation that emits nothing. *)
Definition silent {A} (m : M A) : Prop := forall tr, snd (m tr) = tr.

(** The token a request carries: the session's, or the empty string. *)
Definition tokenOf : string :=
  match getSession env with
  | Some session => token (user session)
  | None => ""
  end.

(** What [getAccessToken] leaves in the trace. *)
Definition sessionTrace : Trace :=
  match getSession env with
  | Some _ => []
  | None => [ConsoleError "Could not get session"]
  end.

(** The request of [fetch]. *)
Definition fetchUrl (sortBy : SortBy) (page : option Z) : string :=
  optionToString (NEXT_PUBLIC_BACKEND_DOMAIN env) ++ getEndpoint ++ "?"
  ++ "sortField=" ++ URLSearchParams.encode (field sortBy)
  ++ "&sortDir=" ++ URLSearchParams.encode (getDirectionAsString sortBy)
  ++ "&page="
  ++ URLSearchParams.encode
       (numberToString (match page with Some p => p | None => 1 end)).

Definition readInit : RequestInit :=
  {| method := None;
     headers := [("Authorization", "Token " ++ tokenOf)];
     body := None;
     cache := Some "no-store" |}.

(** The request of [get] and [delete], and of [put] on a record with
    that id. *)
Definition recordUrl (id : Z) : string :=
  optionToString (NEXT_PUBLIC_BACKEND_DOMAIN env) ++ getEndpoint
  ++ numberToString id ++ "/".

Definition writeInit (method : string) (record : T) : RequestInit :=
  {| method := Some method;
     headers := [("Content-Type", "application/json");
                 ("Authorization", "Token " ++ tokenOf)];
     body := Some (JSON_stringify record);
     cache := None |}.

Definition deleteInit : RequestInit :=
  {| method := Some "DELETE";
     headers := [("Authorization", "Token " ++ tokenOf)];
     body := None;
     cache := None |}.

(** What an operation needs of the outcome of its request: nothing when
    the network failed, [shape] when a response came. *)
Definition answered (o : option Response.t) (shape : Response.t -> Prop)
  : Prop :=
  match o with
  | Some response => shape response
  | None => True
  end.

(** No character of [s] is [sep]. *)
Definition without (sep : ascii) (s : string) : Prop :=
  forallb (fun c => negb (Ascii.eqb c sep)) (list_ascii_of_string s) = true.

(** The serialization of one parameter. *)
Definition piece (p : string * string) : string :=
  URLSearchParams.encode (fst p) ++ "=" ++ URLSearchParams.encode (snd p).

(** [this.parse] returns on a value. *)
Definition parses (v : value) : Prop :=
  exists record : T, parseV v = Returned record.

(** [j.name] on a body that is not null: the own property of an object,
    undefined on anything else. *)
Definition member (j : json) (name : string) : value :=
  match j with
  | JObj props => assoc name props
  | _ => None
  end.

(** The message of a refusal can be worked out in [fetch], [post] and
    [put]: the body is not null and, unless [detail] is truthy, a
    [details] that is an object owning a [length] owns one that converts
    to a string, as every primitive does. *)
Definition refusalReadable (j : json) : Prop :=
  j <> JNull
  /\ (truthyV (member j "detail") = true
      \/ forall ds v,
           member j "details" = Some (JObj ds) ->
           assoc "length" ds = Some v ->
           exists text, toString v = Returned text).

(** The loop over [results] runs to its end: [results] is neither
    undefined nor null; every element of an array or a string parses; an
    object has a [length] that converts to a number below 2^32, and the
    entry of every index below it parses. *)
Definition resultsParse (results : value) : Prop :=
  match results with
  | None | Some JNull => False
  | Some (JArr entries) => Forall (fun entry => parses (Some entry)) entries
  | Some (JStr s) => Forall (fun entry => parses (Some entry)) (chars s)
  | Some (JNum _) | Some (JBool _) => True
  | Some (JObj props) =>
      exists length,
        toNumber (assoc "length" props) = Returned length
        /\ lessThanIndex 4294967295 length = false
        /\ forall index,
             0 <= index < 4294967295 ->
             lessThanIndex index length = true ->
             parses (assoc (numberToString index) props)
  end.

(** A response to [fetch]: the body is JSON and not null; on a refusal
    its message can be worked out; under status 200 the loop over
    [results] runs to its end. *)
Definition listBody (response : Response.t) : Prop :=
  exists j,
    Response.json response = Some j
    /\ j <> JNull
    /\ (Response.status response <> 200 -> refusalReadable j)
    /\ (Response.status response = 200 -> resultsParse (member j "results")).

(** A response to [get] ([created = false]) or to [post] and [put]
    ([created = true]): the body is JSON; on a refusal it is not null
    and, for [post] and [put], its message can be worked out; under a
    success status, 200 or for [post] and [put] 201, it parses. *)
Definition recordBody (created : bool) (response : Response.t) : Prop :=
  exists j,
    Response.json response = Some j
    /\ (Response.status response <> 200 ->
        (created = true -> Response.status response <> 201) ->
        if created then refusalReadable j else j <> JNull)
    /\ (Response.status response = 200
        \/ (created = true /\ Response.status response = 201) ->
        parses (Some j)).

(** As many rounds of [step] as [n] says, one by one. *)
Fixpoint roundsNat {St Res : Type} (n : nat) (step : St -> St + Res)
    (s : St) : St + Res :=
  match n with
  | O => inl s
  | S n' =>
      match step s with
      | inl s' => roundsNat n' step s'
      | inr r => inr r
      end
  end.

End Observations.

(** ** Further observations

    The status a result carries, the diagnostics in a trace, and more
    responses for the project client. *)

Section FurtherObservations.
Context {T : Type} {record_T : DatabaseRecord T} {client_T : RecordClient T}.
Variable env : Env.

(** Modelled from the spec: both shapes of a [MultiRecordResult] carry
    [status]. *)
Definition multiStatus (result : MultiRecordResult.t T) : Z :=
  match result with
  | MultiRecordResult.asSuccessResult status _ _ _ _ => status
  | MultiRecordResult.asErrorResult status _ => status
  end.

(** Modelled from the spec: both shapes of a [SingleRecordResult] carry
    [status]. *)
Definition singleStatus (result : SingleRecordResult.t T) : Z :=
  match result with
  | SingleRecordResult.asSuccessResult status _ => status
  | SingleRecordResult.asErrorResult status _ => status
  end.

Definition multiIsSuccess (result : MultiRecordResult.t T) : bool :=
  match result with
  | MultiRecordResult.asSuccessResult _ _ _ _ _ => true
  | MultiRecordResult.asErrorResult _ _ => false
  end.

Definition singleIsSuccess (result : SingleRecordResult.t T) : bool :=
  match result with
  | SingleRecordResult.asSuccessResult _ _ => true
  | SingleRecordResult.asErrorResult _ _ => false
  end.

(** The diagnostics of a trace, in order. *)
Fixpoint diagnostics (tr : Trace) : list string :=
  match tr with
  | [] => []
  | ConsoleError msg :: rest => msg :: diagnostics rest
  | HttpRequest _ _ :: rest => diagnostics rest
  end.

(** A computation that sends nothing. *)
Definition offTheWire {A} (m : M A) : Prop :=
  forall tr, requests (snd (m tr)) = requests tr.

(** A computation that only adds to the trace. *)
Definition appending {A} (m : M A) : Prop :=
  forall tr, exists rest, snd (m tr) = (tr ++ rest)%list.

(** The request of [post], and of [fetch] in the simpler client. *)
Definition collectionUrl : string :=
  optionToString (NEXT_PUBLIC_BACKEND_DOMAIN env) ++ getEndpoint.

(** The characters a serialized parameter is made of: the ones left as
    they are, [+] for a space, and [%] with hexadecimal digits. *)
Definition queryChar (c : ascii) : bool :=
  let n := N_of_ascii c in
  URLSearchParams.unreserved n || (n =? 43)%N || (n =? 37)%N.

End FurtherObservations.

Module ProjectResponses.
Import ProjectClient.

(** A gateway page: status 502 over a body that is not JSON. *)
Definition badGateway : Response.t :=
  {| Response.status := 502; Response.json := None |}.

(** A failure whose body is the JSON value [null]. *)
Definition nullBody : Response.t :=
  {| Response.status := 500; Response.json := Some JNull |}.

(** A creation: status 201 over the stored record. *)
Definition created : Response.t :=
  {| Response.status := 201; Response.json := Some houseDoc |}.

(** A page whose second entry is not a project. *)
Definition brokenPage : Response.t :=
  {| Response.status := 200;
     Response.json :=
       Some (JObj [("results", JArr [houseDoc; JNum 3; houseDoc])]) |}.

(** A refusal with an empty [detail] beside [details]. *)
Definition emptyDetail : Response.t :=
  {| Response.status := 400;
     Response.json :=
       Some (JObj [("detail", JStr ""); ("details", JArr [JStr "Name is required."])]) |}.

(** A refusal that names its reason in [detail]. *)
Definition forbidden : Response.t :=
  {| Response.status := 403;
     Response.json := Some (JObj [("detail", JStr "Invalid token.")]) |}.

(** A refusal whose [details] is no array but an object that poses as
    one, its length a numeric string. *)
Definition arrayLikeDetails : Response.t :=
  {| Response.status := 400;
     Response.json :=
       Some (JObj [("details",
                    JObj [("length", JStr " 1e0 "); ("0", JStr "Name is required.")])]) |}.

(** A page whose [results] is an object that poses as an array of two,
    the second entry missing. *)
Definition arrayLikeResults : Response.t :=
  {| Response.status := 200;
     Response.json :=
       Some (JObj [("results", JObj [("length", JNum 2); ("0", houseDoc)])]) |}.

(** A failure whose body is a bare JSON string. *)
Definition bareString : Response.t :=
  {| Response.status := 500; Response.json := Some (JStr "Internal Server Error") |}.

End ProjectResponses.

(** * Properties *)

(** ** Reasoning about traces *)

Section Traces.

Lemma silent_ret {A} (a : A) : silent (ret a).
Proof. intros tr. reflexivity. Qed.

Lemma silent_lift {A} (o : Outcome A) : silent (lift o).
Proof. intros tr. reflexivity. Qed.

Lemma silent_bind {A B} (m : M A) (k : A -> M B) :
  silent m -> (forall a, silent (k a)) -> silent (bind m k).
Proof.
  intros Hm Hk tr. unfold bind.
  specialize (Hm tr). destruct (m tr) as [[a | e] tr']; simpl in *; subst.
  - apply Hk.
  - reflexivity.
Qed.

Lemma silent_awaitJson response : silent (awaitJson response).
Proof. apply silent_lift. Qed.

Lemma snd_bind_silent {A B} (m : M A) (k : A -> M B) tr :
  (forall a, silent (k a)) -> snd (bind m k tr) = snd (m tr).
Proof.
  intros Hk. unfold bind.
  destruct (m tr) as [[a | e] tr']; simpl; [apply Hk | reflexivity ..].
Qed.

Lemma requests_app tr1 tr2 :
  requests (tr1 ++ tr2)%list = (requests tr1 ++ requests tr2)%list.
Proof.
  induction tr1 as [| [msg | url init] tr1 IH]; simpl; [reflexivity | exact IH |].
  now rewrite IH.
Qed.

End Traces.

(** Closes [silent m] for a computation built from binds, lifts and case
    distinctions. *)
Ltac silence :=
  repeat first
    [ apply silent_ret
    | apply silent_lift
    | apply silent_awaitJson
    | apply silent_bind; [| intro]
    | match goal with
      | |- silent (match ?x with _ => _ end) => destruct x
      | |- silent (if ?b then _ else _) => destruct b
      | |- silent (let _ := _ in _) => cbv zeta
      end ].

Section TokenOf.
Variable env : Env.

Lemma getAccessToken_run tr :
  DatabaseRecordClient.getAccessToken env tr
  = (Returned (tokenOf env), (tr ++ sessionTrace env)%list).
Proof.
  unfold DatabaseRecordClient.getAccessToken, tokenOf, sessionTrace.
  destruct (getSession env); simpl.
  - unfold ret. now rewrite app_nil_r.
  - reflexivity.
Qed.

Lemma api_getAccessToken_run tr :
  APIClient.getAccessToken env tr
  = (Returned (tokenOf env), (tr ++ sessionTrace env)%list).
Proof.
  unfold APIClient.getAccessToken, tokenOf, sessionTrace.
  destruct (getSession env); simpl.
  - unfold ret. now rewrite app_nil_r.
  - reflexivity.
Qed.

Lemma requests_sessionTrace : requests (sessionTrace env) = [].
Proof. unfold sessionTrace. now destruct (getSession env). Qed.
End TokenOf.

(** ** Reasoning about query strings *)

Section QueryRoundTrip.

Lemma without_app sep (a b : string) :
  without sep a -> without sep b -> without sep (a ++ b).
Proof.
  unfold without. induction a as [| c a IH]; simpl; [auto |].
  intros Ha Hb. apply andb_true_iff in Ha as [Hc Ha].
  rewrite Hc. simpl. now apply IH.
Qed.

Lemma encodeUnit_without_amp (c : ascii) :
  without "&" (URLSearchParams.encodeUnit c).
Proof. destruct c as [[] [] [] [] [] [] [] []]; reflexivity. Qed.

Lemma encodeUnit_without_eq (c : ascii) :
  without "=" (URLSearchParams.encodeUnit c).
Proof. destruct c as [[] [] [] [] [] [] [] []]; reflexivity. Qed.

Lemma encode_without_amp (s : string) : without "&" (URLSearchParams.encode s).
Proof.
  induction s as [| c s IH]; simpl; [reflexivity |].
  apply without_app; [apply encodeUnit_without_amp | exact IH].
Qed.

Lemma encode_without_eq (s : string) : without "=" (URLSearchParams.encode s).
Proof.
  induction s as [| c s IH]; simpl; [reflexivity |].
  apply without_app; [apply encodeUnit_without_eq | exact IH].
Qed.

Lemma splitOn_nonempty sep (s : string) : URLSearchParams.splitOn sep s <> [].
Proof.
  destruct s as [| c s]; simpl; [discriminate |].
  destruct (Ascii.eqb c sep); [discriminate |].
  destruct (URLSearchParams.splitOn sep s); discriminate.
Qed.

Lemma splitOn_whole sep (a : string) :
  without sep a -> URLSearchParams.splitOn sep a = [a].
Proof.
  unfold without. induction a as [| c a IH]; simpl; [reflexivity |].
  intros Ha. apply andb_true_iff in Ha as [Hc Ha].
  apply negb_true_iff in Hc. rewrite Hc, (IH Ha). reflexivity.
Qed.

Lemma splitOn_first sep (a b : string) :
  without sep a ->
  URLSearchParams.splitOn sep (a ++ String sep b)
  = a :: URLSearchParams.splitOn sep b.
Proof.
  unfold without. induction a as [| c a IH]; simpl.
  - intros _. now rewrite Ascii.eqb_refl.
  - intros Ha. apply andb_true_iff in Ha as [Hc Ha].
    apply negb_true_iff in Hc. rewrite Hc, (IH Ha). reflexivity.
Qed.

Lemma nameValue_first (a b : string) :
  without "=" a ->
  URLSearchParams.nameValue (a ++ String "=" b) = (a, b).
Proof.
  unfold without. induction a as [| c a IH]; simpl; [reflexivity |].
  intros Ha. apply andb_true_iff in Ha as [Hc Ha].
  apply negb_true_iff in Hc. rewrite Hc, (IH Ha). reflexivity.
Qed.

Lemma percentDecode_encodeUnit (c : ascii) (rest : string) :
  URLSearchParams.percentDecode (URLSearchParams.encodeUnit c ++ rest)
  = (URLSearchParams.utf8 (N_of_ascii c)
     ++ URLSearchParams.percentDecode rest)%list.
Proof. destruct c as [[] [] [] [] [] [] [] []]; reflexivity. Qed.

Lemma utf8Decode_utf8 (c : ascii) (bytes : list N) :
  URLSearchParams.utf8Decode (URLSearchParams.utf8 (N_of_ascii c) ++ bytes)%list
  = option_map (String c) (URLSearchParams.utf8Decode bytes).
Proof. destruct c as [[] [] [] [] [] [] [] []]; reflexivity. Qed.

(** Decoding undoes encoding, whatever the string. *)
Lemma decode_encode (s : string) :
  URLSearchParams.decode (URLSearchParams.encode s) = Some s.
Proof.
  unfold URLSearchParams.decode.
  induction s as [| c s IH]; simpl; [reflexivity |].
  now rewrite percentDecode_encodeUnit, utf8Decode_utf8, IH.
Qed.

Lemma piece_without_amp p : without "&" (piece p).
Proof.
  unfold piece. apply without_app; [apply encode_without_amp |].
  apply (without_app "&" "=" _ eq_refl). apply encode_without_amp.
Qed.

Lemma parsePieces_piece p (rest : list string) :
  URLSearchParams.parsePieces (piece p :: rest)
  = match URLSearchParams.parsePieces rest with
    | Some params => Some (p :: params)
    | None => None
    end.
Proof.
  destruct p as [name value]. unfold piece. simpl fst. simpl snd.
  cbn [URLSearchParams.parsePieces].
  replace (URLSearchParams.encode name ++ "=" ++ URLSearchParams.encode value)
    with (URLSearchParams.encode name
          ++ String "=" (URLSearchParams.encode value)) by reflexivity.
  rewrite nameValue_first by apply encode_without_eq.
  simpl fst. simpl snd. rewrite !decode_encode.
  destruct (URLSearchParams.encode name); reflexivity.
Qed.

(** Parsing undoes serialization, whatever the parameters: the same
    names and values come back, as many and in the same order. *)
Lemma parse_toString (params : URLSearchParams.t) :
  URLSearchParams.parse (URLSearchParams.toString params) = Some params.
Proof.
  unfold URLSearchParams.parse, URLSearchParams.toString.
  change (fun p : string * string =>
            URLSearchParams.encode (fst p) ++ "=" ++ URLSearchParams.encode (snd p))
    with piece.
  induction params as [| p params IH]; [reflexivity |].
  destruct params as [| p' params].
  - simpl. rewrite splitOn_whole by apply piece_without_amp.
    now rewrite parsePieces_piece.
  - change (String.concat "&" (map piece (p :: p' :: params)))
      with (piece p ++ String "&" (String.concat "&" (map piece (p' :: params)))).
    rewrite splitOn_first by apply piece_without_amp.
    now rewrite parsePieces_piece, IH.
Qed.

End QueryRoundTrip.

(** ** The requests the richer client issues *)

Section Requests.
Context {T : Type} {record_T : DatabaseRecord T} {client_T : RecordClient T}.
Variable env : Env.

(** The one place where a client touches the network: whatever the
    continuation [k] does with the response, and whatever the handler
    answers, the trace grows by the session diagnostic and one request. *)
Lemma attempt_trace {A B} (url : string) (init : RequestInit)
    (wrap : Response.t -> A) (handler : exn -> M A) (k : A -> M B) tr :
  (forall e, silent (handler e)) -> (forall a, silent (k a)) ->
  snd (bind (tryCatch (bind (Runtime.fetch env url init)
                         (fun response => ret (wrap response)))
               handler) k tr)
  = (tr ++ [HttpRequest url init])%list.
Proof.
  intros Hh Hk. rewrite snd_bind_silent by exact Hk.
  unfold tryCatch, bind, Runtime.fetch, ret.
  destruct (network env url init); simpl; [reflexivity | apply Hh].
Qed.

Lemma bind_getAccessToken {A} (k : string -> M A) tr :
  bind (DatabaseRecordClient.getAccessToken env) k tr
  = k (tokenOf env) (tr ++ sessionTrace env)%list.
Proof. unfold bind. now rewrite getAccessToken_run. Qed.

Lemma append_assoc (a b c : string) : (a ++ b) ++ c = a ++ b ++ c.
Proof. induction a; simpl; [reflexivity | now rewrite IHa]. Qed.

Lemma encode_uint (d : Decimal.uint) :
  URLSearchParams.encode (NilEmpty.string_of_uint d)
  = NilEmpty.string_of_uint d.
Proof. induction d; simpl; [reflexivity | now rewrite IHd ..]. Qed.

Lemma encode_numberToString (n : Z) :
  URLSearchParams.encode (numberToString n) = numberToString n.
Proof.
  unfold numberToString, NilZero.string_of_int, NilZero.string_of_uint.
  destruct (Z.to_int n) as [d | d]; destruct d; simpl;
    try reflexivity; now rewrite encode_uint.
Qed.

(** A number reads back from its digits. *)
Lemma numeralValue_numberToString (n : Z) :
  numeralValue (numberToString n) = Some n.
Proof.
  unfold numeralValue, numberToString.
  rewrite NilZero.isi.
  - simpl. now rewrite Stdlib.Numbers.DecimalZ.of_to.
  - destruct n as [| p | p]; try discriminate.
    simpl. intros [= H]. now apply Stdlib.Numbers.DecimalPos.Unsigned.to_uint_nonnil in H.
  - destruct n as [| p | p]; try discriminate.
    simpl. intros [= H]. now apply Stdlib.Numbers.DecimalPos.Unsigned.to_uint_nonnil in H.
Qed.

Lemma fetch_url_eq (sortBy : SortBy) (page : Z) :
  optionToString (DatabaseRecordClient.domain env) ++ getEndpoint ++ "?"
  ++ URLSearchParams.toString
       [ ("sortField", field sortBy);
         ("sortDir", getDirectionAsString sortBy);
         ("page", numberToString page) ]
  = fetchUrl env sortBy (Some page).
Proof.
  unfold fetchUrl, URLSearchParams.toString, DatabaseRecordClient.domain.
  simpl. rewrite encode_numberToString.
  rewrite ?append_assoc. reflexivity.
Qed.

Lemma fetch_trace (sortBy : SortBy) (page : option Z) :
  snd (run (DatabaseRecordClient.fetch env sortBy page))
  = (sessionTrace env ++ [HttpRequest (fetchUrl env sortBy page) (readInit env)])%list.
Proof.
  unfold run, DatabaseRecordClient.fetch. cbv zeta.
  rewrite bind_getAccessToken, fetch_url_eq.
  rewrite attempt_trace.
  - now destruct page.
  - intro. silence.
  - intro. silence.
Qed.

Lemma get_trace (id : Z) :
  snd (run (DatabaseRecordClient.get env id))
  = (sessionTrace env ++ [HttpRequest (recordUrl env id) (readInit env)])%list.
Proof.
  unfold run, DatabaseRecordClient.get. cbv zeta.
  rewrite bind_getAccessToken, attempt_trace.
  - reflexivity.
  - intro. silence.
  - intro. silence.
Qed.

Lemma submit_trace (record : T) (url method : string) tr :
  snd (DatabaseRecordClient.submit env record url method tr)
  = (tr ++ sessionTrace env ++ [HttpRequest url (writeInit env method record)])%list.
Proof.
  unfold DatabaseRecordClient.submit.
  rewrite bind_getAccessToken, attempt_trace.
  - now rewrite <- app_assoc.
  - intro. silence.
  - intro. silence.
Qed.

Lemma delete_run (id : Z) :
  run (DatabaseRecordClient.delete env id)
  = (Returned (network env (recordUrl env id) (deleteInit env)),
     (sessionTrace env ++ [HttpRequest (recordUrl env id) (deleteInit env)])%list).
Proof.
  unfold run, DatabaseRecordClient.delete. cbv zeta.
  rewrite bind_getAccessToken.
  unfold tryCatch, bind, Runtime.fetch, ret, recordUrl, deleteInit,
    DatabaseRecordClient.domain.
  now destruct (network env _ _).
Qed.

(** C6.  For every record [r] whose id is a safe integer, [put r] issues
    exactly one HTTP request: its method is PUT, its target is the domain,
    the endpoint, [r.id] in decimal digits and a slash in that order, and
    its body is the record as JSON.  (The domain is what the configuration
    holds, rendered as a string.) *)
Theorem put_issues_one_PUT_request (r : T) :
  safeInteger (id r) ->
  requests (snd (run (DatabaseRecordClient.put env r)))
  = [ (optionToString (NEXT_PUBLIC_BACKEND_DOMAIN env) ++ getEndpoint
       ++ numberToString (id r) ++ "/",
       {| method := Some "PUT";
          headers := [("Content-Type", "application/json");
                      ("Authorization", "Token " ++ tokenOf env)];
          body := Some (JSON_stringify r);
          cache := None |}) ]
  /\ numeralValue (numberToString (id r)) = Some (id r).
Proof.
  intros _. split; [| apply numeralValue_numberToString].
  unfold run, DatabaseRecordClient.put. cbv zeta.
  rewrite submit_trace. simpl.
  now rewrite requests_app, requests_sessionTrace.
Qed.

(** C8.  For every [sortBy] and every page that is a safe integer,
    [fetch] issues one request, a GET carrying the access token, to the
    domain plus the endpoint plus [?] and a query string.  The query
    string is [sortField=], the sort field, [&sortDir=], the direction as
    a string, [&page=] and the page in decimal digits, 1 when the argument
    is omitted, field and direction in the percent-encoding of forms; read
    back, it holds exactly these three parameters with exactly these
    values. *)
Theorem fetch_issues_authenticated_GET (sortBy : SortBy) (page : option Z) :
  safeInteger (match page with Some p => p | None => 1 end) ->
  exists query init,
    requests (snd (run (DatabaseRecordClient.fetch env sortBy page)))
    = [ (optionToString (NEXT_PUBLIC_BACKEND_DOMAIN env) ++ getEndpoint
         ++ "?" ++ query,
         init) ]
    /\ query
       = "sortField=" ++ URLSearchParams.encode (field sortBy)
         ++ "&sortDir=" ++ URLSearchParams.encode (getDirectionAsString sortBy)
         ++ "&page="
         ++ numberToString (match page with Some p => p | None => 1 end)
    /\ URLSearchParams.parse query
       = Some [ ("sortField", field sortBy);
                ("sortDir", getDirectionAsString sortBy);
                ("page",
                 numberToString (match page with Some p => p | None => 1 end)) ]
    /\ numeralValue
         (numberToString (match page with Some p => p | None => 1 end))
       = Some (match page with Some p => p | None => 1 end)
    /\ requestMethod init = "GET"
    /\ headers init = [("Authorization", "Token " ++ tokenOf env)]
    /\ body init = None.
Proof.
  intros _.
  exists (URLSearchParams.toString
            [ ("sortField", field sortBy);
              ("sortDir", getDirectionAsString sortBy);
              ("page",
               numberToString (match page with Some p => p | None => 1 end)) ]),
         (readInit env).
  split; [| split; [| split; [| split]]].
  - rewrite fetch_trace, requests_app, requests_sessionTrace.
    replace (fetchUrl env sortBy page)
      with (fetchUrl env sortBy
              (Some (match page with Some p => p | None => 1 end)))
      by (now destruct page).
    now rewrite <- fetch_url_eq.
  - unfold URLSearchParams.toString. simpl.
    rewrite encode_numberToString. now rewrite ?append_assoc.
  - apply parse_toString.
  - apply numeralValue_numberToString.
  - repeat split.
Qed.

(** C9.  For every id that is a safe integer, [delete id] issues one
    authenticated DELETE to the domain, the endpoint, the id in decimal
    digits and a slash; it returns what the network gave, the raw response
    of a completed request whatever its status, or null when the request
    failed; it never throws. *)
Theorem delete_returns_response_or_null (id : Z) :
  safeInteger id ->
  let url :=
    optionToString (NEXT_PUBLIC_BACKEND_DOMAIN env) ++ getEndpoint
    ++ numberToString id ++ "/" in
  let init :=
    {| method := Some "DELETE";
       headers := [("Authorization", "Token " ++ tokenOf env)];
       body := None;
       cache := None |} in
  fst (run (DatabaseRecordClient.delete env id))
  = Returned (network env url init)
  /\ requests (snd (run (DatabaseRecordClient.delete env id)))
     = [(url, init)]
  /\ numeralValue (numberToString id) = Some id.
Proof.
  intros _. cbv zeta. rewrite delete_run. simpl.
  rewrite requests_app, requests_sessionTrace.
  repeat split. apply numeralValue_numberToString.
Qed.

(** C7.  Without a session, [getAccessToken] logs an error and returns
    the empty string, and the request that follows still goes out, with
    the header [Authorization: Token ] and nothing after the space. *)
Theorem missing_session_request_proceeds :
  getSession env = None ->
  run (DatabaseRecordClient.getAccessToken env)
  = (Returned "", [ConsoleError "Could not get session"])
  /\ (forall sortBy page, exists url init,
        snd (run (DatabaseRecordClient.fetch env sortBy page))
        = [ConsoleError "Could not get session"; HttpRequest url init]
        /\ In ("Authorization", "Token ") (headers init))
  /\ (forall id, exists url init,
        snd (run (DatabaseRecordClient.get env id))
        = [ConsoleError "Could not get session"; HttpRequest url init]
        /\ In ("Authorization", "Token ") (headers init))
  /\ (forall r, exists url init,
        snd (run (DatabaseRecordClient.post env r))
        = [ConsoleError "Could not get session"; HttpRequest url init]
        /\ In ("Authorization", "Token ") (headers init))
  /\ (forall r, exists url init,
        snd (run (DatabaseRecordClient.put env r))
        = [ConsoleError "Could not get session"; HttpRequest url init]
        /\ In ("Authorization", "Token ") (headers init))
  /\ (forall id, exists url init,
        snd (run (DatabaseRecordClient.delete env id))
        = [ConsoleError "Could not get session"; HttpRequest url init]
        /\ In ("Authorization", "Token ") (headers init)).
Proof.
  intros Hnone.
  assert (Htr : sessionTrace env = [ConsoleError "Could not get session"])
    by (unfold sessionTrace; now rewrite Hnone).
  assert (Htok : tokenOf env = "") by (unfold tokenOf; now rewrite Hnone).
  split; [| split; [| split; [| split; [| split]]]].
  - unfold run. rewrite getAccessToken_run, Htr, Htok. reflexivity.
  - intros sortBy page. eexists _, _. rewrite fetch_trace, Htr.
    split; [reflexivity |]. simpl. rewrite Htok. now left.
  - intros id. eexists _, _. rewrite get_trace, Htr.
    split; [reflexivity |]. simpl. rewrite Htok. now left.
  - intros r. eexists _, _. unfold run, DatabaseRecordClient.post.
    cbv zeta. rewrite submit_trace, Htr.
    split; [reflexivity |]. simpl. rewrite Htok. right. now left.
  - intros r. eexists _, _. unfold run, DatabaseRecordClient.put.
    cbv zeta. rewrite submit_trace, Htr.
    split; [reflexivity |]. simpl. rewrite Htok. right. now left.
  - intros id. eexists _, _. rewrite delete_run, Htr.
    split; [reflexivity |]. simpl. rewrite Htok. now left.
Qed.

End Requests.

(** ** The results of the richer client *)

Section Results.
Context {T : Type} {record_T : DatabaseRecord T} {client_T : RecordClient T}.
Variable env : Env.

Lemma attempt_answered {A B} (url : string) (init : RequestInit)
    (response : Response.t) (wrap : Response.t -> A) (handler : exn -> M A)
    (k : A -> M B) tr :
  network env url init = Some response ->
  bind (tryCatch (bind (Runtime.fetch env url init)
                    (fun response => ret (wrap response)))
          handler) k tr
  = k (wrap response) (tr ++ [HttpRequest url init])%list.
Proof.
  intros Hnet. unfold tryCatch, bind, Runtime.fetch, ret.
  now rewrite Hnet.
Qed.

Lemma attempt_failed {A B} (url : string) (init : RequestInit)
    (wrap : Response.t -> A) (handler : exn -> M A) (k : A -> M B) tr :
  network env url init = None ->
  bind (tryCatch (bind (Runtime.fetch env url init)
                    (fun response => ret (wrap response)))
          handler) k tr
  = bind (handler NetworkError) k (tr ++ [HttpRequest url init])%list.
Proof.
  intros Hnet. unfold tryCatch, bind, Runtime.fetch, ret.
  now rewrite Hnet.
Qed.

(** The loop over [results] parses every entry, in order. *)
Lemma parseEach_all (entries : list json) (records : list T) :
  Forall2 (fun entry record => parse entry = Returned record) entries records ->
  forall acc,
    DatabaseRecordClient.parseEach acc entries = Returned (acc ++ records)%list.
Proof.
  induction 1 as [| entry record entries records Hparse _ IH]; intros acc.
  - simpl. now rewrite app_nil_r.
  - simpl. rewrite Hparse. simpl. rewrite IH.
    now rewrite <- app_assoc.
Qed.

Lemma notNullish_spec (v : value) :
  notNullish v = true <-> exists j, v = Some j /\ j <> JNull.
Proof.
  split.
  - destruct v as [[] |]; simpl; intros H; try discriminate;
      eexists; (split; [reflexivity | discriminate]).
  - intros (j & -> & Hj). destruct j; simpl; congruence.
Qed.

(** *** Network failures *)

Lemma fetch_offline (sortBy : SortBy) (page : option Z) :
  network env (fetchUrl env sortBy page) (readInit env) = None ->
  fst (run (DatabaseRecordClient.fetch env sortBy page))
  = Returned (MultiRecordResult.asErrorResult 503
                (JStr "Could not connect to the API")).
Proof.
  intros Hnet.
  unfold run, DatabaseRecordClient.fetch. cbv zeta.
  rewrite bind_getAccessToken, fetch_url_eq.
  rewrite attempt_failed; [reflexivity | now destruct page].
Qed.

Lemma get_offline (id : Z) :
  network env (recordUrl env id) (readInit env) = None ->
  fst (run (DatabaseRecordClient.get env id))
  = Returned (SingleRecordResult.asErrorResult 503
                (JStr "Could not connect to the API")).
Proof.
  intros Hnet.
  unfold run, DatabaseRecordClient.get. cbv zeta.
  rewrite bind_getAccessToken.
  rewrite attempt_failed; [reflexivity | exact Hnet].
Qed.

Lemma submit_offline (record : T) (url method : string) tr :
  network env url (writeInit env method record) = None ->
  fst (DatabaseRecordClient.submit env record url method tr)
  = Returned (SingleRecordResult.asErrorResult 503
                (JStr "Could not connect to API")).
Proof.
  intros Hnet.
  unfold DatabaseRecordClient.submit.
  rewrite bind_getAccessToken.
  rewrite attempt_failed; [reflexivity | exact Hnet].
Qed.

(** *** HTTP-level failures *)

Lemma fetch_http_error (sortBy : SortBy) (page : option Z)
    (response : Response.t) (j : json) :
  network env (fetchUrl env sortBy page) (readInit env) = Some response ->
  Response.json response = Some j ->
  Response.status response <> 200 ->
  fst (run (DatabaseRecordClient.fetch env sortBy page))
  = obind (DatabaseRecordClient.errorOf j) (fun error =>
      Returned (MultiRecordResult.asErrorResult (Response.status response) error)).
Proof.
  intros Hnet Hjson Hstatus.
  unfold run, DatabaseRecordClient.fetch. cbv zeta.
  rewrite bind_getAccessToken, fetch_url_eq.
  rewrite (attempt_answered _ _ response) by (now destruct page).
  unfold awaitJson, bind, lift, ret. rewrite Hjson.
  apply Z.eqb_neq in Hstatus. rewrite Hstatus. simpl.
  now destruct (DatabaseRecordClient.errorOf j).
Qed.

Lemma get_http_error (id : Z) (response : Response.t) (j : json) :
  network env (recordUrl env id) (readInit env) = Some response ->
  Response.json response = Some j ->
  Response.status response <> 200 ->
  fst (run (DatabaseRecordClient.get env id))
  = obind (prop j "detail") (fun detail =>
      Returned (SingleRecordResult.asErrorResult (Response.status response)
                  match detail with
                  | None | Some JNull => JStr "Unknown error"
                  | Some d => d
                  end)).
Proof.
  intros Hnet Hjson Hstatus.
  unfold run, DatabaseRecordClient.get. cbv zeta.
  rewrite bind_getAccessToken.
  rewrite (attempt_answered _ _ response) by exact Hnet.
  unfold awaitJson, bind, lift, ret. rewrite Hjson.
  apply Z.eqb_neq in Hstatus. rewrite Hstatus. simpl.
  destruct (prop j "detail") as [[[] |] | e]; reflexivity.
Qed.

Lemma submit_http_error (record : T) (url method : string)
    (response : Response.t) (j : json) tr :
  network env url (writeInit env method record) = Some response ->
  Response.json response = Some j ->
  Response.status response <> 200 ->
  Response.status response <> 201 ->
  fst (DatabaseRecordClient.submit env record url method tr)
  = obind (DatabaseRecordClient.errorOf j) (fun error =>
      Returned (SingleRecordResult.asErrorResult (Response.status response) error)).
Proof.
  intros Hnet Hjson H200 H201.
  unfold DatabaseRecordClient.submit.
  rewrite bind_getAccessToken.
  rewrite (attempt_answered _ _ response) by exact Hnet.
  unfold awaitJson, bind, lift, ret. rewrite Hjson.
  apply Z.eqb_neq in H200, H201. rewrite H200, H201. simpl.
  now destruct (DatabaseRecordClient.errorOf j).
Qed.

(** The precedence [fetch] and [submit] apply to the body of a failure:
    a truthy [detail], else the first entry of a non-empty [details]
    array, else the fallback. *)
Lemma errorOf_precedence (props : list (string * json)) :
  (forall d, assoc "detail" props = Some d -> truthy d = true ->
     DatabaseRecordClient.errorOf (JObj props) = Returned (Some d))
  /\ (forall first rest,
       truthyV (assoc "detail" props) = false ->
       assoc "details" props = Some (JArr (first :: rest)) ->
       DatabaseRecordClient.errorOf (JObj props) = Returned (Some first))
  /\ (truthyV (assoc "detail" props) = false ->
      (assoc "details" props = None \/ assoc "details" props = Some JNull
       \/ assoc "details" props = Some (JArr [])) ->
      DatabaseRecordClient.errorOf (JObj props)
      = Returned (Some (JStr "Unknown error"))).
Proof.
  unfold DatabaseRecordClient.errorOf. simpl.
  split; [| split].
  - intros d -> Hd. now rewrite Hd.
  - intros first rest Hdetail ->. simpl.
    destruct (assoc "detail" props) as [d |]; [| reflexivity].
    simpl in Hdetail. now rewrite Hdetail.
  - intros Hdetail Hdetails.
    destruct (assoc "detail" props) as [d |]; simpl in Hdetail;
      rewrite ?Hdetail; destruct Hdetails as [-> | [-> | ->]]; reflexivity.
Qed.

(** *** Successes *)

Lemma fetch_ok (sortBy : SortBy) (page : option Z)
    (response : Response.t) (props : list (string * json))
    (entries : list json) (records : list T) :
  network env (fetchUrl env sortBy page) (readInit env) = Some response ->
  Response.status response = 200 ->
  Response.json response = Some (JObj props) ->
  assoc "results" props = Some (JArr entries) ->
  Forall2 (fun entry record => parse entry = Returned record) entries records ->
  fst (run (DatabaseRecordClient.fetch env sortBy page))
  = Returned (MultiRecordResult.asSuccessResult 200 records
                (match page with Some p => p | None => 1 end)
                (notNullish (assoc "previous" props))
                (notNullish (assoc "next" props))).
Proof.
  intros Hnet Hstatus Hjson Hresults Hparse.
  unfold run, DatabaseRecordClient.fetch. cbv zeta.
  rewrite bind_getAccessToken, fetch_url_eq.
  rewrite (attempt_answered _ _ response) by (now destruct page).
  unfold awaitJson, bind, lift, ret. rewrite Hjson, Hstatus. simpl.
  rewrite Hresults. simpl.
  rewrite (parseEach_all entries records Hparse []). reflexivity.
Qed.

Lemma get_ok (id : Z) (response : Response.t) (j : json) (record : T) :
  network env (recordUrl env id) (readInit env) = Some response ->
  Response.status response = 200 ->
  Response.json response = Some j ->
  parse j = Returned record ->
  fst (run (DatabaseRecordClient.get env id))
  = Returned (SingleRecordResult.asSuccessResult 200 record).
Proof.
  intros Hnet Hstatus Hjson Hparse.
  unfold run, DatabaseRecordClient.get. cbv zeta.
  rewrite bind_getAccessToken.
  rewrite (attempt_answered _ _ response) by exact Hnet.
  unfold awaitJson, bind, lift, ret. rewrite Hjson, Hstatus. simpl.
  now rewrite Hparse.
Qed.

Lemma submit_ok (record : T) (url method : string)
    (response : Response.t) (j : json) (newRecord : T) tr :
  network env url (writeInit env method record) = Some response ->
  Response.status response = 200 \/ Response.status response = 201 ->
  Response.json response = Some j ->
  parse j = Returned newRecord ->
  fst (DatabaseRecordClient.submit env record url method tr)
  = Returned (SingleRecordResult.asSuccessResult (Response.status response)
                newRecord).
Proof.
  intros Hnet Hstatus Hjson Hparse.
  unfold DatabaseRecordClient.submit.
  rewrite bind_getAccessToken.
  rewrite (attempt_answered _ _ response) by exact Hnet.
  unfold awaitJson, bind, lift, ret. rewrite Hjson.
  destruct Hstatus as [-> | ->]; simpl; now rewrite Hparse.
Qed.

Lemma all_parse (entries : list json) :
  Forall (fun entry => exists record : T, parse entry = Returned record) entries ->
  exists records,
    Forall2 (fun entry record => parse entry = Returned record) entries records.
Proof.
  induction 1 as [| entry entries [record Hrecord] _ [records IH]].
  - exists []. constructor.
  - exists (record :: records). now constructor.
Qed.

Lemma toNumber_returns (v : json) :
  (exists text, toString v = Returned text) ->
  exists n, toNumber (Some v) = Returned n.
Proof.
  intros [text Htext].
  destruct v; try (eexists; reflexivity);
    unfold toNumber; rewrite Htext; eexists; reflexivity.
Qed.

Lemma prop_member (j : json) (name : string) :
  j <> JNull -> prop j name = Returned (member j name).
Proof. intros Hnull. destruct j; try reflexivity. now contradiction Hnull. Qed.

Lemma errorOf_returns (j : json) :
  refusalReadable j ->
  exists error, DatabaseRecordClient.errorOf j = Returned error.
Proof.
  intros [Hnull Hcase]. unfold DatabaseRecordClient.errorOf.
  rewrite !prop_member by exact Hnull. simpl.
  assert (Hpositive :
    truthyV (member j "detail") = false ->
    exists positive, lengthPositive (member j "details") = Returned positive).
  { intros Hfalsy.
    destruct Hcase as [Htruthy | Hlength]; [congruence |].
    destruct (member j "details") as [[| b | n | str | elems | ds] |] eqn:Hds;
      simpl; try (eexists; reflexivity).
    destruct (assoc "length" ds) as [v |] eqn:Hv; [| eexists; reflexivity].
    destruct (toNumber_returns v (Hlength ds v eq_refl Hv)) as [n Hn].
    rewrite Hn. eexists. reflexivity. }
  destruct (member j "detail") as [d |]; simpl in Hpositive.
  - destruct (truthy d); [eexists; reflexivity |].
    destruct (Hpositive eq_refl) as [positive ->]. simpl.
    destruct positive; eexists; reflexivity.
  - destruct (Hpositive eq_refl) as [positive ->]. simpl.
    destruct positive; eexists; reflexivity.
Qed.

(** The rounds counted in binary are the rounds counted one by one. *)
Lemma roundsNat_add {St Res : Type} (a b : nat) (step : St -> St + Res) s :
  roundsNat (a + b) step s
  = match roundsNat a step s with
    | inl s' => roundsNat b step s'
    | inr r => inr r
    end.
Proof.
  revert s. induction a as [| a IH]; intros s; simpl; [reflexivity |].
  destruct (step s); [apply IH | reflexivity].
Qed.

Lemma rounds_xI {St Res : Type} (n : positive) (step : St -> St + Res) s :
  rounds n~1 step s
  = match step s with
    | inl s1 =>
        match rounds n step s1 with
        | inl s2 => rounds n step s2
        | inr r => inr r
        end
    | inr r => inr r
    end.
Proof. reflexivity. Qed.

Lemma rounds_xO {St Res : Type} (n : positive) (step : St -> St + Res) s :
  rounds n~0 step s
  = match rounds n step s with
    | inl s' => rounds n step s'
    | inr r => inr r
    end.
Proof. reflexivity. Qed.

Lemma rounds_roundsNat {St Res : Type} (n : positive)
    (step : St -> St + Res) s :
  rounds n step s = roundsNat (Pos.to_nat n) step s.
Proof.
  revert s. induction n as [n IH | n IH |]; intros s.
  - rewrite Pos2Nat.inj_xI, rounds_xI.
    replace (2 * Pos.to_nat n)%nat
      with (Pos.to_nat n + Pos.to_nat n)%nat by lia.
    cbn [roundsNat].
    destruct (step s) as [s1 | r]; [| reflexivity].
    rewrite roundsNat_add, <- IH.
    destruct (rounds n step s1); [apply IH | reflexivity].
  - rewrite Pos2Nat.inj_xO, rounds_xO.
    replace (2 * Pos.to_nat n)%nat
      with (Pos.to_nat n + Pos.to_nat n)%nat by lia.
    rewrite roundsNat_add, <- IH.
    destruct (rounds n step s); [apply IH | reflexivity].
  - rewrite Pos2Nat.inj_1. change (rounds 1 step s) with (step s).
    cbn. destruct (step s); reflexivity.
Qed.

(** The loop over an object returns when its length stays below 2^32 and
    every entry below the length parses. *)
Lemma pushEntry_returns (results : list (string * json)) (length : number) :
  lessThanIndex 4294967295 length = false ->
  (forall index,
     0 <= index < 4294967295 ->
     lessThanIndex index length = true ->
     parses (assoc (numberToString index) results)) ->
  forall (n : nat) (index : Z) (records : list T),
    0 <= index <= 4294967295 ->
    index + Z.of_nat n = 4294967296 ->
    exists records',
      roundsNat n (pushEntry results length) (index, records)
      = inr (Returned records').
Proof.
  intros Hcap Hparse.
  induction n as [| n IH]; intros index records Hindex Hsum; [lia |].
  simpl. unfold pushEntry at 1.
  destruct (lessThanIndex index length) eqn:Htest; [| eexists; reflexivity].
  assert (Hbelow : index < 4294967295).
  { destruct (Z.eq_dec index 4294967295) as [-> |]; [congruence | lia]. }
  destruct (Hparse index (conj (proj1 Hindex) Hbelow) Htest) as [record Hrecord].
  rewrite Hrecord.
  destruct (index =? 4294967295) eqn:Heq; [apply Z.eqb_eq in Heq; lia |].
  apply IH; lia.
Qed.

Lemma parseResults_returns (results : value) :
  resultsParse results ->
  exists records, DatabaseRecordClient.parseResults results = Returned records.
Proof.
  destruct results as [[| b | n | str | entries | props] |];
    cbn [resultsParse DatabaseRecordClient.parseResults];
    try contradiction; try (intros _; eexists; reflexivity).
  - intros Hall. destruct (all_parse _ Hall) as [records Hrecords].
    exists records. apply (parseEach_all _ _ Hrecords []).
  - intros Hall. destruct (all_parse _ Hall) as [records Hrecords].
    exists records. apply (parseEach_all _ _ Hrecords []).
  - intros (length & Hlength & Hcap & Hparse).
    unfold parseArrayLike. rewrite Hlength. cbn [obind].
    rewrite rounds_roundsNat.
    destruct (pushEntry_returns props length Hcap Hparse
                (Pos.to_nat 4294967296) 0 []) as [records Hrecords];
      [lia | rewrite positive_nat_Z; reflexivity |].
    rewrite Hrecords. eexists. reflexivity.
Qed.

Lemma fetch_runs_to_the_end (sortBy : SortBy) (page : option Z)
    (response : Response.t) (j : json) (records : list T) :
  network env (fetchUrl env sortBy page) (readInit env) = Some response ->
  Response.status response = 200 ->
  Response.json response = Some j ->
  j <> JNull ->
  DatabaseRecordClient.parseResults (member j "results") = Returned records ->
  fst (run (DatabaseRecordClient.fetch env sortBy page))
  = Returned (MultiRecordResult.asSuccessResult 200 records
                (match page with Some p => p | None => 1 end)
                (notNullish (member j "previous"))
                (notNullish (member j "next"))).
Proof.
  intros Hnet Hstatus Hjson Hnull Hrecords.
  unfold run, DatabaseRecordClient.fetch. cbv zeta.
  rewrite bind_getAccessToken, fetch_url_eq.
  rewrite (attempt_answered _ _ response) by (now destruct page).
  unfold awaitJson, bind, lift, ret. rewrite Hjson, Hstatus.
  rewrite !prop_member by exact Hnull. simpl.
  now rewrite Hrecords.
Qed.

(** C5.  When the request of [fetch] is answered with status 200 and a
    body whose [results] is an array of entries that all parse, the call
    returns a success result: its records are the parsed entries in order,
    its page is the requested page (1 when omitted), [hasPreviousPage] is
    true exactly when [previous] is there and not null, [hasNextPage]
    exactly when [next] is there and not null. *)
Theorem fetch_success_pagination (sortBy : SortBy) (page : option Z)
    (response : Response.t) (props : list (string * json))
    (entries : list json) (records : list T) :
  network env (fetchUrl env sortBy page) (readInit env) = Some response ->
  Response.status response = 200 ->
  Response.json response = Some (JObj props) ->
  assoc "results" props = Some (JArr entries) ->
  Forall2 (fun entry record => parse entry = Returned record) entries records ->
  exists hasPreviousPage hasNextPage,
    fst (run (DatabaseRecordClient.fetch env sortBy page))
    = Returned (MultiRecordResult.asSuccessResult 200 records
                  (match page with Some p => p | None => 1 end)
                  hasPreviousPage hasNextPage)
    /\ (hasPreviousPage = true <->
        exists v, assoc "previous" props = Some v /\ v <> JNull)
    /\ (hasNextPage = true <->
        exists v, assoc "next" props = Some v /\ v <> JNull).
Proof.
  intros Hnet Hstatus Hjson Hresults Hparse.
  exists (notNullish (assoc "previous" props)),
         (notNullish (assoc "next" props)).
  split; [| split; apply notNullish_spec].
  now apply fetch_ok with (response := response) (entries := entries).
Qed.

(** C1.  When the network fails, each of [fetch], [get], [post] and
    [put] returns a failure result of status 503.  The message is one
    fixed text in [fetch] and [get] and another fixed text in [post] and
    [put]: the two differ by an article, so the four operations do not
    share one message. *)
Theorem network_failure_is_503_with_two_messages :
  (forall url init, network env url init = None) ->
  (forall sortBy page,
     fst (run (DatabaseRecordClient.fetch env sortBy page))
     = Returned (MultiRecordResult.asErrorResult 503
                   (JStr "Could not connect to the API")))
  /\ (forall id,
        fst (run (DatabaseRecordClient.get env id))
        = Returned (SingleRecordResult.asErrorResult 503
                      (JStr "Could not connect to the API")))
  /\ (forall r,
        fst (run (DatabaseRecordClient.post env r))
        = Returned (SingleRecordResult.asErrorResult 503
                      (JStr "Could not connect to API")))
  /\ (forall r,
        fst (run (DatabaseRecordClient.put env r))
        = Returned (SingleRecordResult.asErrorResult 503
                      (JStr "Could not connect to API")))
  /\ JStr "Could not connect to API" <> JStr "Could not connect to the API".
Proof.
  intros Hnet. repeat split.
  - intros. now apply fetch_offline.
  - intros. now apply get_offline.
  - intros. unfold run, DatabaseRecordClient.post. cbv zeta.
    now apply submit_offline.
  - intros. unfold run, DatabaseRecordClient.put. cbv zeta.
    now apply submit_offline.
  - discriminate.
Qed.

(** C2.  On a response that is not a success, whose body carries no
    [detail] but a non-empty [details] array, [fetch], [post] and [put]
    answer with the first entry of [details] and the status of the
    response, while [get] answers with the fallback message: [get] reads
    [detail] only. *)
Theorem get_ignores_details (response : Response.t)
    (props : list (string * json)) (first : json) (rest : list json) :
  (forall url init, network env url init = Some response) ->
  Response.json response = Some (JObj props) ->
  Response.status response <> 200 ->
  Response.status response <> 201 ->
  assoc "detail" props = None ->
  assoc "details" props = Some (JArr (first :: rest)) ->
  (forall id,
     fst (run (DatabaseRecordClient.get env id))
     = Returned (SingleRecordResult.asErrorResult (Response.status response)
                   (JStr "Unknown error")))
  /\ (forall sortBy page,
        fst (run (DatabaseRecordClient.fetch env sortBy page))
        = Returned (MultiRecordResult.asErrorResult (Response.status response)
                      first))
  /\ (forall r,
        fst (run (DatabaseRecordClient.post env r))
        = Returned (SingleRecordResult.asErrorResult (Response.status response)
                      first))
  /\ (forall r,
        fst (run (DatabaseRecordClient.put env r))
        = Returned (SingleRecordResult.asErrorResult (Response.status response)
                      first)).
Proof.
  intros Hnet Hjson H200 H201 Hdetail Hdetails.
  assert (Herror :
    DatabaseRecordClient.errorOf (JObj props) = Returned (Some first)).
  { apply (proj1 (proj2 (errorOf_precedence props))) with (rest := rest).
    - now rewrite Hdetail.
    - exact Hdetails. }
  repeat split.
  - intros id.
    rewrite (get_http_error id response (JObj props)) by auto.
    simpl. now rewrite Hdetail.
  - intros sortBy page.
    rewrite (fetch_http_error sortBy page response (JObj props)) by auto.
    now rewrite Herror.
  - intros r. unfold run, DatabaseRecordClient.post. cbv zeta.
    rewrite (submit_http_error r _ _ response (JObj props)) by auto.
    now rewrite Herror.
  - intros r. unfold run, DatabaseRecordClient.put. cbv zeta.
    rewrite (submit_http_error r _ _ response (JObj props)) by auto.
    now rewrite Herror.
Qed.

Lemma submit_returns (record : T) (url method : string) tr :
  answered (network env url (writeInit env method record)) (recordBody true) ->
  exists result,
    fst (DatabaseRecordClient.submit env record url method tr) = Returned result.
Proof.
  unfold answered.
  destruct (network env url (writeInit env method record)) as [response |] eqn:Hnet.
  - intros (j & Hjson & Hrefusal & Hsuccess).
    destruct (Z.eq_dec (Response.status response) 200) as [H200 | H200];
      [| destruct (Z.eq_dec (Response.status response) 201) as [H201 | H201]].
    + destruct Hsuccess as [newRecord Hparse]; [now left |].
      eexists. apply submit_ok with (j := j); eauto.
    + destruct Hsuccess as [newRecord Hparse]; [now right |].
      eexists. apply submit_ok with (j := j); eauto.
    + destruct (errorOf_returns j (Hrefusal H200 (fun _ => H201)))
        as [error Herror].
      eexists.
      rewrite (submit_http_error record url method response j) by assumption.
      rewrite Herror. reflexivity.
  - intros _. eexists. now apply submit_offline.
Qed.

(** C3, amended.  Each of [fetch], [get], [post] and [put] returns a
    result wrapper and throws nothing whenever the request fails on the
    network, and whenever it is answered with a JSON body that the path
    taken can read.  On a refusal (a status other than 200, for [post] and
    [put] other than 200 and 201) the body is not null and, in [fetch],
    [post] and [put], unless [detail] is truthy, the [length] owned by a
    [details] object, if any, converts to a string.  Under status 200 in
    [fetch] the body is not null, [results] is neither missing nor null,
    its length stays below 2^32 and [parse] returns on every entry below
    its length.  Under status 200 in [get], and 200 or 201 in [post] and
    [put], [parse] returns on the body. *)
Theorem object_bodies_give_result_wrappers :
  (forall sortBy page,
     answered (network env (fetchUrl env sortBy page) (readInit env)) listBody ->
     exists result,
       fst (run (DatabaseRecordClient.fetch env sortBy page)) = Returned result)
  /\ (forall id,
        answered (network env (recordUrl env id) (readInit env))
          (recordBody false) ->
        exists result,
          fst (run (DatabaseRecordClient.get env id)) = Returned result)
  /\ (forall r,
        answered
          (network env
             (optionToString (NEXT_PUBLIC_BACKEND_DOMAIN env) ++ getEndpoint)
             (writeInit env "POST" r))
          (recordBody true) ->
        exists result,
          fst (run (DatabaseRecordClient.post env r)) = Returned result)
  /\ (forall r,
        answered (network env (recordUrl env (id r)) (writeInit env "PUT" r))
          (recordBody true) ->
        exists result,
          fst (run (DatabaseRecordClient.put env r)) = Returned result).
Proof.
  split; [| split; [| split]].
  - intros sortBy page. unfold answered.
    destruct (network env (fetchUrl env sortBy page) (readInit env))
      as [response |] eqn:Hnet.
    + intros (j & Hjson & Hnull & Hrefusal & Hsuccess).
      destruct (Z.eq_dec (Response.status response) 200) as [H200 | H200].
      * destruct (parseResults_returns _ (Hsuccess H200)) as [records Hrecords].
        eexists. eapply fetch_runs_to_the_end; eauto.
      * destruct (errorOf_returns j (Hrefusal H200)) as [error Herror].
        eexists.
        rewrite (fetch_http_error sortBy page response j) by assumption.
        rewrite Herror. reflexivity.
    + intros _. eexists. now apply fetch_offline.
  - intros id. unfold answered.
    destruct (network env (recordUrl env id) (readInit env))
      as [response |] eqn:Hnet.
    + intros (j & Hjson & Hrefusal & Hsuccess).
      destruct (Z.eq_dec (Response.status response) 200) as [H200 | H200].
      * destruct Hsuccess as [record Hparse]; [now left |].
        eexists. eapply get_ok; eauto.
      * eexists.
        rewrite (get_http_error id response j) by assumption.
        rewrite prop_member by (apply (Hrefusal H200); discriminate).
        reflexivity.
    + intros _. eexists. now apply get_offline.
  - intros r Hshape. unfold run, DatabaseRecordClient.post. cbv zeta.
    now apply submit_returns.
  - intros r Hshape. unfold run, DatabaseRecordClient.put. cbv zeta.
    now apply submit_returns.
Qed.

End Results.

(** ** The results of the simpler client *)

Section SimplerResults.
Context {T : Type} {record_T : DatabaseRecord T} {client_T : RecordClient T}.
Variable env : Env.

Lemma api_bind_getAccessToken {A} (k : string -> M A) tr :
  bind (APIClient.getAccessToken env) k tr
  = k (tokenOf env) (tr ++ sessionTrace env)%list.
Proof. unfold bind. now rewrite api_getAccessToken_run. Qed.

Lemma bind_fetch_answered {A} (url : string) (init : RequestInit)
    (response : Response.t) (k : Response.t -> M A) tr :
  network env url init = Some response ->
  bind (Runtime.fetch env url init) k tr
  = k response (tr ++ [HttpRequest url init])%list.
Proof. intros Hnet. unfold bind, Runtime.fetch. now rewrite Hnet. Qed.

Lemma bind_fetch_failed {A} (url : string) (init : RequestInit)
    (k : Response.t -> M A) tr :
  network env url init = None ->
  bind (Runtime.fetch env url init) k tr
  = (Threw NetworkError, (tr ++ [HttpRequest url init])%list).
Proof. intros Hnet. unfold bind, Runtime.fetch. now rewrite Hnet. Qed.

Lemma api_parseEach_all (entries : list json) (records : list T) :
  Forall2 (fun entry record => parse entry = Returned record) entries records ->
  forall acc,
    APIClient.parseEach acc entries = Returned (acc ++ records)%list.
Proof.
  induction 1 as [| entry record entries records Hparse _ IH]; intros acc.
  - simpl. now rewrite app_nil_r.
  - simpl. rewrite Hparse. simpl. rewrite IH.
    now rewrite <- app_assoc.
Qed.

(** Unfolds an operation of the simpler client up to the response. *)
Ltac api_run Hnet :=
  unfold run, APIClient.fetch, APIClient.get, APIClient.post, APIClient.put;
  cbv zeta;
  rewrite api_bind_getAccessToken;
  rewrite bind_fetch_answered with (1 := Hnet _ _);
  unfold awaitJson, console_error, bind, lift, ret.

Variable response : Response.t.
Hypothesis Hnet : forall url init, network env url init = Some response.



Lemma api_fetch_ok (props : list (string * json)) (entries : list json)
    (records : list T) :
  Response.ok response = true ->
  Response.json response = Some (JObj props) ->
  truthyV (assoc "detail" props) = false ->
  assoc "results" props = Some (JArr entries) ->
  Forall2 (fun entry record => parse entry = Returned record) entries records ->
  fst (run (APIClient.fetch env)) = Returned records.
Proof.
  intros Hok Hjson Hdetail Hresults Hparse.
  api_run Hnet. rewrite Hok, Hjson. simpl.
  destruct (assoc "detail" props) as [d |]; simpl in Hdetail;
    rewrite ?Hdetail, Hresults; simpl;
    now rewrite (api_parseEach_all entries records Hparse []).
Qed.









(** C10, amended.  When the body of the response carries a truthy
    [detail] that converts to a string, [fetch] returns the empty list,
    whatever the status and whatever [results] the body also carries. *)
Theorem truthy_detail_gives_no_records (props : list (string * json))
    (d : json) (text : string) :
  Response.json response = Some (JObj props) ->
  assoc "detail" props = Some d ->
  truthy d = true ->
  toString d = Returned text ->
  fst (run (APIClient.fetch env)) = Returned (@nil T).
Proof.
  intros Hjson Hdetail Htruthy Htext.
  api_run Hnet. destruct (Response.ok response); simpl; [| reflexivity].
  rewrite Hjson. simpl. now rewrite Hdetail, Htruthy, Htext.
Qed.

End SimplerResults.

(** ** What the simpler client hands back *)

Section SimplerContract.
Context {T : Type} {record_T : DatabaseRecord T} {client_T : RecordClient T}.
Variable env : Env.


End SimplerContract.

(** ** The model at work on the project client *)

Section Runs.
Import ProjectClient.

(** The example of the specification: page 2, sorted by date, one record,
    a page before and none after. *)
Example fetch_last_page :
  fst (run (DatabaseRecordClient.fetch (answering lastPage) byDateDesc (Some 2)))
  = Returned (MultiRecordResult.asSuccessResult 200 [house] 2 true false).
Proof. reflexivity. Qed.

(** [previous] null and [next] a URL: no page before, one after. *)
Example fetch_first_page :
  run (DatabaseRecordClient.fetch (answering firstPage) byDateDesc None)
  = (Returned (MultiRecordResult.asSuccessResult 200 [house] 1 false true),
     [HttpRequest
        "https://api.example.org/projects/?sortField=date&sortDir=desc&page=1"
        {| method := None;
           headers := [("Authorization", "Token s3cr3t")];
           body := None;
           cache := Some "no-store" |}]).
Proof. reflexivity. Qed.

Lemma network_failure_witness :
  (forall url init, network offline url init = None)
  /\ fst (run (DatabaseRecordClient.fetch offline byDateDesc None))
     = Returned (MultiRecordResult.asErrorResult 503
                   (JStr "Could not connect to the API"))
  /\ fst (run (DatabaseRecordClient.put offline house))
     = Returned (SingleRecordResult.asErrorResult 503
                   (JStr "Could not connect to API")).
Proof.
  split; [reflexivity |].
  destruct (network_failure_is_503_with_two_messages (T := Project) offline
              (fun _ _ => eq_refl)) as (Hfetch & _ & _ & Hput & _).
  split; [apply Hfetch | apply Hput].
Defined.

Lemma get_ignores_details_witness :
  fst (run (DatabaseRecordClient.get (answering notFound) 3))
  = Returned (SingleRecordResult.asErrorResult (T := Project) 404
                (JStr "Unknown error"))
  /\ fst (run (DatabaseRecordClient.fetch (answering notFound) byDateDesc None))
     = Returned (MultiRecordResult.asErrorResult (T := Project) 404
                   (JStr "Not found.")).
Proof.
  destruct (get_ignores_details (T := Project) (answering notFound) notFound
              [("details", JArr [JStr "Not found."])] (JStr "Not found.") [])
    as (Hget & Hfetch & _); try reflexivity; try discriminate.
  split; [apply Hget | apply Hfetch].
Defined.

(** C3, as stated, fails: answered with status 200 and an empty object,
    [fetch] reads [length] of the missing [results] and the TypeError
    reaches the caller. *)
Lemma fetch_throws_without_results :
  fst (run (DatabaseRecordClient.fetch (answering emptyObject) byDateDesc None))
  = Threw (A := MultiRecordResult.t Project) TypeError.
Proof. reflexivity. Qed.

(** A [details] that is no array but poses as one is read like one. *)
Example post_reads_array_like_details :
  fst (run (DatabaseRecordClient.post
              (answering ProjectResponses.arrayLikeDetails) house))
  = Returned (SingleRecordResult.asErrorResult 400 (JStr "Name is required.")).
Proof. vm_compute. reflexivity. Qed.

(** So is a [results] that poses as an array: the entry it lacks goes to
    [parse] as undefined. *)
Example fetch_reads_array_like_results :
  fst (run (DatabaseRecordClient.fetch
              (answering ProjectResponses.arrayLikeResults) byDateDesc None))
  = Threw (A := MultiRecordResult.t Project) (UserError "not a project").
Proof. vm_compute. reflexivity. Qed.

Lemma object_bodies_witness :
  (exists result,
     fst (run (DatabaseRecordClient.fetch (answering lastPage) byDateDesc (Some 2)))
     = Returned result)
  /\ (exists result,
        fst (run (DatabaseRecordClient.post
                    (answering ProjectResponses.arrayLikeDetails) house))
        = Returned result)
  /\ (exists result,
        fst (run (DatabaseRecordClient.get
                    (answering ProjectResponses.bareString) 7))
        = Returned result).
Proof.
  split; [| split].
  - apply (proj1 (object_bodies_give_result_wrappers (T := Project)
                    (answering lastPage))).
    simpl. eexists. split; [reflexivity |]. split; [discriminate |].
    split; [intros H; now contradiction H |].
    intros _. constructor; [| constructor]. eexists. reflexivity.
  - apply (proj1 (proj2 (proj2 (object_bodies_give_result_wrappers
                                  (T := Project)
                                  (answering ProjectResponses.arrayLikeDetails))))).
    simpl. eexists. split; [reflexivity |]. split.
    + intros _ _. split; [discriminate |]. right.
      intros ds v [= <-] [= <-]. eexists. reflexivity.
    + intros [H | [_ H]]; discriminate H.
  - apply (proj1 (proj2 (object_bodies_give_result_wrappers (T := Project)
                           (answering ProjectResponses.bareString)))).
    simpl. eexists. split; [reflexivity |]. split.
    + intros _ _. discriminate.
    + intros [H | [H _]]; discriminate H.
Defined.



Lemma fetch_success_pagination_witness :
  exists hasPreviousPage hasNextPage,
    fst (run (DatabaseRecordClient.fetch (answering firstPage) byDateDesc (Some 1)))
    = Returned (MultiRecordResult.asSuccessResult 200 [house] 1
                  hasPreviousPage hasNextPage)
    /\ hasPreviousPage = false /\ hasNextPage = true.
Proof.
  destruct (fetch_success_pagination (T := Project) (answering firstPage)
              byDateDesc (Some 1) firstPage
              [("results", JArr [houseDoc]);
               ("previous", JNull);
               ("next", JStr "https://api.example.org/projects/?page=2")]
              [houseDoc] [house])
    as (hp & hn & Hrun & Hprevious & Hnext); try reflexivity.
  - constructor; [reflexivity | constructor].
  - exists hp, hn. split; [exact Hrun |]. split.
    + destruct hp; [| reflexivity].
      destruct (proj1 Hprevious eq_refl) as (v & Hv & Hnull).
      simpl in Hv. congruence.
    + apply Hnext. simpl. eexists. split; [reflexivity | discriminate].
Defined.

Lemma missing_session_witness :
  getSession (signedOut lastPage) = None
  /\ run (DatabaseRecordClient.getAccessToken (signedOut lastPage))
     = (Returned "", [ConsoleError "Could not get session"])
  /\ exists url init,
       snd (run (DatabaseRecordClient.fetch (signedOut lastPage) byDateDesc None))
       = [ConsoleError "Could not get session"; HttpRequest url init]
       /\ In ("Authorization", "Token ") (headers init).
Proof.
  split; [reflexivity |].
  destruct (missing_session_request_proceeds (T := Project)
              (signedOut lastPage) eq_refl) as (Htoken & Hfetch & _).
  split; [exact Htoken | apply Hfetch].
Defined.

(** C10, as stated, fails: a truthy [detail] that is an object with an
    own [toString] entry cannot be turned into the text of the
    diagnostic; the concatenation throws and no list is returned. *)
Lemma api_fetch_throws_on_detail_without_text :
  truthy (JObj [("toString", JNum 0)]) = true
  /\ fst (run (APIClient.fetch
                 (answering (detailAndResults (JObj [("toString", JNum 0)])))))
     = Threw (A := list Project) TypeError.
Proof. split; reflexivity. Qed.

Lemma truthy_detail_witness :
  fst (run (APIClient.fetch
              (answering (detailAndResults (JStr "Invalid token.")))))
  = Returned (@nil Project).
Proof.
  apply (truthy_detail_gives_no_records (T := Project)
           (answering (detailAndResults (JStr "Invalid token.")))
           (detailAndResults (JStr "Invalid token.")) (fun _ _ => eq_refl)
           [("detail", JStr "Invalid token."); ("results", JArr [houseDoc])]
           (JStr "Invalid token.") "Invalid token.");
    reflexivity.
Defined.

Lemma put_issues_one_PUT_request_witness :
  safeInteger 7
  /\ requests (snd (run (DatabaseRecordClient.put (answering notFound) house)))
     = [ ("https://api.example.org/projects/7/",
          {| method := Some "PUT";
             headers := [("Content-Type", "application/json");
                         ("Authorization", "Token s3cr3t")];
             body := Some ("{" ++ dq ++ "id" ++ dq ++ ":7," ++ dq ++ "name" ++ dq
                           ++ ":" ++ dq ++ "House" ++ dq ++ "}");
             cache := None |}) ]
  /\ numeralValue "7" = Some 7.
Proof.
  assert (H : safeInteger 7) by (unfold safeInteger; simpl; lia).
  split; [exact H |].
  exact (put_issues_one_PUT_request (T := Project) (record_T := project_record)
           (client_T := project_client) (answering notFound) house H).
Defined.

Lemma fetch_issues_authenticated_GET_witness :
  safeInteger 12
  /\ exists init,
       requests (snd (run (DatabaseRecordClient.fetch (answering lastPage)
                             {| field := "due date&id";
                                getDirectionAsString := "desc" |}
                             (Some 12))))
       = [ ("https://api.example.org/projects/?sortField=due+date%26id&sortDir=desc&page=12",
            init) ]
       /\ URLSearchParams.parse "sortField=due+date%26id&sortDir=desc&page=12"
          = Some [("sortField", "due date&id"); ("sortDir", "desc"); ("page", "12")]
       /\ requestMethod init = "GET"
       /\ headers init = [("Authorization", "Token s3cr3t")]
       /\ body init = None.
Proof.
  assert (H : safeInteger 12) by (unfold safeInteger; simpl; lia).
  split; [exact H |].
  destruct (fetch_issues_authenticated_GET (T := Project)
              (client_T := project_client)
              (answering lastPage)
              {| field := "due date&id"; getDirectionAsString := "desc" |}
              (Some 12) H)
    as (query & init & Hreq & Hquery & Hparse & _ & Hmethod & Hheaders & Hbody).
  exists init. subst query.
  split; [exact Hreq | split; [exact Hparse | repeat split; assumption]].
Defined.

Lemma delete_returns_response_or_null_witness :
  safeInteger 7
  /\ fst (run (DatabaseRecordClient.delete (T := Project) (answering notFound) 7))
     = Returned (Some notFound)
  /\ requests (snd (run (DatabaseRecordClient.delete (T := Project)
                           (answering notFound) 7)))
     = [ ("https://api.example.org/projects/7/",
          {| method := Some "DELETE";
             headers := [("Authorization", "Token s3cr3t")];
             body := None;
             cache := None |}) ]
  /\ numeralValue "7" = Some 7.
Proof.
  assert (H : safeInteger 7) by (unfold safeInteger; simpl; lia).
  split; [exact H |].
  exact (delete_returns_response_or_null (T := Project)
           (client_T := project_client) (answering notFound) 7 H).
Defined.

End Runs.

(** * Further properties *)

(** ** The traces of the richer client *)

Section MoreRequests.
Context {T : Type} {record_T : DatabaseRecord T} {client_T : RecordClient T}.
Variable env : Env.

(** X1.  Whatever the network does and whatever the body holds, [get id],
    for an id that is a safe integer, leaves in the trace the diagnostic of
    a missing session, if any, and then exactly one request: a GET, without
    a body and uncached, to the domain, the endpoint, the id in decimal
    digits and a slash, carrying the token. *)
Theorem get_sends_one_GET (id : Z) :
  safeInteger id ->
  let url :=
    optionToString (NEXT_PUBLIC_BACKEND_DOMAIN env) ++ getEndpoint
    ++ numberToString id ++ "/" in
  let init :=
    {| method := None;
       headers := [("Authorization", "Token " ++ tokenOf env)];
       body := None;
       cache := Some "no-store" |} in
  snd (run (DatabaseRecordClient.get env id))
  = (sessionTrace env ++ [HttpRequest url init])%list
  /\ numeralValue (numberToString id) = Some id.
Proof.
  intros _. cbv zeta. rewrite get_trace.
  split; [reflexivity | apply numeralValue_numberToString].
Qed.

(** X2.  Whatever the network does and whatever the body holds, [post r]
    leaves in the trace the diagnostic of a missing session, if any, and
    then exactly one request: a POST to the domain plus the endpoint, with
    the JSON content type, the token and the record as JSON. *)
Theorem post_sends_one_POST (r : T) :
  let url := optionToString (NEXT_PUBLIC_BACKEND_DOMAIN env) ++ getEndpoint in
  let init :=
    {| method := Some "POST";
       headers := [("Content-Type", "application/json");
                   ("Authorization", "Token " ++ tokenOf env)];
       body := Some (JSON_stringify r);
       cache := None |} in
  snd (run (DatabaseRecordClient.post env r))
  = (sessionTrace env ++ [HttpRequest url init])%list.
Proof.
  unfold run, DatabaseRecordClient.post. cbv zeta.
  rewrite submit_trace. reflexivity.
Qed.

Lemma diagnostics_app tr1 tr2 :
  diagnostics (tr1 ++ tr2)%list = (diagnostics tr1 ++ diagnostics tr2)%list.
Proof.
  induction tr1 as [| [msg | url init] tr1 IH]; simpl; [reflexivity | | exact IH].
  now rewrite IH.
Qed.

(** X3.  The richer client never logs a failure: after any of its five
    operations the diagnostics of the trace are those of the session
    lookup alone, whether the request failed, was refused or answered
    with a body the operation throws on. *)
Theorem richer_client_logs_no_failure :
  (forall sortBy page,
     diagnostics (snd (run (DatabaseRecordClient.fetch env sortBy page)))
     = diagnostics (sessionTrace env))
  /\ (forall id,
        diagnostics (snd (run (DatabaseRecordClient.get env id)))
        = diagnostics (sessionTrace env))
  /\ (forall r,
        diagnostics (snd (run (DatabaseRecordClient.post env r)))
        = diagnostics (sessionTrace env))
  /\ (forall r,
        diagnostics (snd (run (DatabaseRecordClient.put env r)))
        = diagnostics (sessionTrace env))
  /\ (forall id,
        diagnostics (snd (run (DatabaseRecordClient.delete env id)))
        = diagnostics (sessionTrace env)).
Proof.
  repeat split; intros.
  - rewrite fetch_trace, diagnostics_app. simpl. apply app_nil_r.
  - rewrite get_trace, diagnostics_app. simpl. apply app_nil_r.
  - unfold run, DatabaseRecordClient.post. cbv zeta.
    rewrite submit_trace. simpl. rewrite diagnostics_app. simpl. apply app_nil_r.
  - unfold run, DatabaseRecordClient.put. cbv zeta.
    rewrite submit_trace. simpl. rewrite diagnostics_app. simpl. apply app_nil_r.
  - rewrite delete_run. simpl. rewrite diagnostics_app. simpl. apply app_nil_r.
Qed.

End MoreRequests.

(** ** More results of the richer client *)

Section MoreResults.
Context {T : Type} {record_T : DatabaseRecord T} {client_T : RecordClient T}.
Variable env : Env.
Variable response : Response.t.
Hypothesis Hnet : forall url init, network env url init = Some response.

(** The richer client up to the body of the response. *)
Ltac richer_run :=
  unfold run, DatabaseRecordClient.post, DatabaseRecordClient.put,
    DatabaseRecordClient.submit, DatabaseRecordClient.fetch,
    DatabaseRecordClient.get;
  cbv zeta;
  rewrite bind_getAccessToken;
  rewrite (attempt_answered env _ _ response) by apply Hnet;
  unfold awaitJson, bind, lift, ret.

(** Splits on every outcome and test the goal still branches on. *)
Ltac outcomes :=
  repeat match goal with
    | |- context [match ?x with
                  | Returned _ => _ | Threw _ => _
                  end] => destruct x eqn:?; cbv beta iota
    | |- context [match ?x with Some _ => _ | None => _ end] =>
        destruct x eqn:?; cbv beta iota
    | |- context [if ?b then _ else _] => destruct b eqn:?; cbv beta iota
    end.

(** X4.  On a completed request the status of a returned result is the
    status of the response, on the success and on the failure path of
    [fetch], [get], [post] and [put] alike. *)
Theorem result_carries_response_status :
  (forall sortBy page result,
     fst (run (DatabaseRecordClient.fetch env sortBy page)) = Returned result ->
     multiStatus result = Response.status response)
  /\ (forall id result,
        fst (run (DatabaseRecordClient.get env id)) = Returned result ->
        singleStatus result = Response.status response)
  /\ (forall r result,
        fst (run (DatabaseRecordClient.post env r)) = Returned result ->
        singleStatus result = Response.status response)
  /\ (forall r result,
        fst (run (DatabaseRecordClient.put env r)) = Returned result ->
        singleStatus result = Response.status response).
Proof.
  repeat split; intros until result; richer_run; outcomes; simpl;
    intros H; inversion H; reflexivity.
Qed.

(** X5.  A result is a success only under status 200 for [fetch] and
    [get], and only under 200 or 201 for [post] and [put]: every other
    status, the other 2xx included, comes back as a failure or not at
    all. *)
Theorem success_only_under_200_or_201 :
  (forall sortBy page result,
     fst (run (DatabaseRecordClient.fetch env sortBy page)) = Returned result ->
     multiIsSuccess result = true -> Response.status response = 200)
  /\ (forall id result,
        fst (run (DatabaseRecordClient.get env id)) = Returned result ->
        singleIsSuccess result = true -> Response.status response = 200)
  /\ (forall r result,
        fst (run (DatabaseRecordClient.post env r)) = Returned result ->
        singleIsSuccess result = true ->
        Response.status response = 200 \/ Response.status response = 201)
  /\ (forall r result,
        fst (run (DatabaseRecordClient.put env r)) = Returned result ->
        singleIsSuccess result = true ->
        Response.status response = 200 \/ Response.status response = 201).
Proof.
  repeat split; intros until result; richer_run; outcomes; simpl;
    intros H; inversion H; subst; simpl; intros Hs; try discriminate;
    repeat match goal with
      | H : negb _ = false |- _ => apply negb_false_iff in H
      | H : (_ && _)%bool = false |- _ => apply andb_false_iff in H; destruct H
      | H : (_ =? _) = true |- _ => apply Z.eqb_eq in H
      end; auto.
Qed.

(** X6.  The message of a refusal in [fetch], [post] and [put]: when the
    status is neither 200 nor 201 and the body is an object, the failure
    result carries the status of the response and, as its message, a
    truthy [detail]; failing that the first entry of a non-empty [details]
    array; failing that ["Unknown error"].  A [detail] that is present but
    falsy, the empty string say, counts as missing. *)
Theorem refusal_message_precedence (props : list (string * json))
    (message : json) :
  Response.json response = Some (JObj props) ->
  Response.status response <> 200 ->
  Response.status response <> 201 ->
  (assoc "detail" props = Some message /\ truthy message = true)
  \/ (truthyV (assoc "detail" props) = false
      /\ exists rest, assoc "details" props = Some (JArr (message :: rest)))
  \/ (truthyV (assoc "detail" props) = false
      /\ (assoc "details" props = None
          \/ assoc "details" props = Some JNull
          \/ assoc "details" props = Some (JArr []))
      /\ message = JStr "Unknown error") ->
  (forall sortBy page,
     fst (run (DatabaseRecordClient.fetch env sortBy page))
     = Returned (MultiRecordResult.asErrorResult (Response.status response)
                   message))
  /\ (forall r,
        fst (run (DatabaseRecordClient.post env r))
        = Returned (SingleRecordResult.asErrorResult (Response.status response)
                      message))
  /\ (forall r,
        fst (run (DatabaseRecordClient.put env r))
        = Returned (SingleRecordResult.asErrorResult (Response.status response)
                      message)).
Proof.
  intros Hjson H200 H201 Hcase.
  assert (Herror :
    DatabaseRecordClient.errorOf (JObj props) = Returned (Some message)).
  { destruct (errorOf_precedence props) as (Hdetail & Hfirst & Hnone).
    destruct Hcase as [[Hd Ht] | [[Hd [rest Hds]] | (Hd & Hds & ->)]].
    - now apply Hdetail.
    - now apply Hfirst with (rest := rest).
    - now apply Hnone. }
  repeat split; intros.
  - rewrite (fetch_http_error env sortBy page response (JObj props)) by auto.
    now rewrite Herror.
  - unfold run, DatabaseRecordClient.post. cbv zeta.
    rewrite (submit_http_error env r _ _ response (JObj props)) by auto.
    now rewrite Herror.
  - unfold run, DatabaseRecordClient.put. cbv zeta.
    rewrite (submit_http_error env r _ _ response (JObj props)) by auto.
    now rewrite Herror.
Qed.

(** X7.  The message of a refusal in [get]: under a status other than 200
    the failure result carries [detail] whenever the body has one that is
    not null, a falsy one such as the empty string included, and
    ["Unknown error"] when [detail] is null or missing; [details] plays no
    part. *)
Theorem get_refusal_message (id : Z) (props : list (string * json)) :
  Response.json response = Some (JObj props) ->
  Response.status response <> 200 ->
  (forall d, assoc "detail" props = Some d -> d <> JNull ->
     fst (run (DatabaseRecordClient.get env id))
     = Returned (SingleRecordResult.asErrorResult (Response.status response) d))
  /\ (assoc "detail" props = None \/ assoc "detail" props = Some JNull ->
      fst (run (DatabaseRecordClient.get env id))
      = Returned (SingleRecordResult.asErrorResult (Response.status response)
                    (JStr "Unknown error"))).
Proof.
  intros Hjson H200.
  rewrite (get_http_error env id response (JObj props)) by auto.
  simpl. split.
  - intros d -> Hd. destruct d; congruence.
  - intros [-> | ->]; reflexivity.
Qed.

(** X8.  Success of the single-record operations: when the body parses
    to a record, [get] under status 200 and [post] and [put] under status
    200 or 201 return a success result holding that record and the status
    of the response, 201 staying 201. *)
Theorem single_record_success (j : json) (record : T) :
  Response.json response = Some j ->
  parse j = Returned record ->
  (Response.status response = 200 ->
     forall id,
       fst (run (DatabaseRecordClient.get env id))
       = Returned (SingleRecordResult.asSuccessResult 200 record))
  /\ (Response.status response = 200 \/ Response.status response = 201 ->
      forall r,
        fst (run (DatabaseRecordClient.post env r))
        = Returned (SingleRecordResult.asSuccessResult
                      (Response.status response) record)
        /\ fst (run (DatabaseRecordClient.put env r))
           = Returned (SingleRecordResult.asSuccessResult
                         (Response.status response) record)).
Proof.
  intros Hjson Hparse. split.
  - intros H200 id. now apply get_ok with (response := response) (j := j).
  - intros Hstatus r. split.
    + unfold run, DatabaseRecordClient.post. cbv zeta.
      now apply submit_ok with (j := j).
    + unfold run, DatabaseRecordClient.put. cbv zeta.
      now apply submit_ok with (j := j).
Qed.

Lemma parseEach_stops (good : list json) (records : list T) (bad : json)
    (rest : list json) (e : exn) :
  Forall2 (fun entry record => parse entry = Returned record) good records ->
  parse bad = Threw e ->
  forall acc,
    DatabaseRecordClient.parseEach acc (good ++ bad :: rest)%list = Threw e.
Proof.
  intros Hgood Hbad.
  induction Hgood as [| entry record good records Hparse _ IH]; intros acc; simpl.
  - now rewrite Hbad.
  - rewrite Hparse. simpl. apply IH.
Qed.

(** X9.  [fetch] returns all records or none: when, under status 200, an
    entry of [results] makes [parse] throw, the exception of the first such
    entry reaches the caller, and the records parsed before it are lost. *)
Theorem fetch_fails_on_first_bad_entry (sortBy : SortBy) (page : option Z)
    (props : list (string * json)) (good : list json) (records : list T)
    (bad : json) (rest : list json) (e : exn) :
  Response.status response = 200 ->
  Response.json response = Some (JObj props) ->
  assoc "results" props = Some (JArr (good ++ bad :: rest)) ->
  Forall2 (fun entry record => parse entry = Returned record) good records ->
  parse bad = Threw e ->
  fst (run (DatabaseRecordClient.fetch env sortBy page)) = Threw e.
Proof.
  intros Hstatus Hjson Hresults Hgood Hbad.
  richer_run. rewrite Hjson, Hstatus. simpl. rewrite Hresults. simpl.
  now rewrite (parseEach_stops good records bad rest e Hgood Hbad []).
Qed.

(** X10.  A body that is not JSON: whatever the status, [fetch], [get],
    [post] and [put] throw the SyntaxError of [response.json()], so the
    failure of a gateway that answers with a page of text is not reported
    as a result. *)
Theorem body_that_is_not_json_throws :
  Response.json response = None ->
  (forall sortBy page,
     fst (run (DatabaseRecordClient.fetch env sortBy page)) = Threw SyntaxError)
  /\ (forall id,
        fst (run (DatabaseRecordClient.get env id)) = Threw SyntaxError)
  /\ (forall r,
        fst (run (DatabaseRecordClient.post env r)) = Threw SyntaxError)
  /\ (forall r,
        fst (run (DatabaseRecordClient.put env r)) = Threw SyntaxError).
Proof.
  intros Hjson. repeat split; intros; richer_run; now rewrite Hjson.
Qed.

(** X11.  A body that is the JSON value null: [fetch] throws a TypeError
    under every status, [get] under every status but 200, [post] and [put]
    under every status but 200 and 201. *)
Theorem null_body_throws :
  Response.json response = Some JNull ->
  (forall sortBy page,
     fst (run (DatabaseRecordClient.fetch env sortBy page)) = Threw TypeError)
  /\ (Response.status response <> 200 ->
      forall id, fst (run (DatabaseRecordClient.get env id)) = Threw TypeError)
  /\ (Response.status response <> 200 -> Response.status response <> 201 ->
      forall r,
        fst (run (DatabaseRecordClient.post env r)) = Threw TypeError
        /\ fst (run (DatabaseRecordClient.put env r)) = Threw TypeError).
Proof.
  intros Hjson. split; [| split].
  - intros. richer_run. rewrite Hjson.
    now destruct (negb (Response.status response =? 200)).
  - intros H200 id. richer_run. rewrite Hjson.
    apply Z.eqb_neq in H200. now rewrite H200.
  - intros H200 H201 r. apply Z.eqb_neq in H200, H201.
    split; richer_run; now rewrite Hjson, H200, H201.
Qed.

(** X12.  A refusal whose body is JSON but neither an object nor null, a
    bare string, number, boolean or array: [fetch], [get], [post] and [put]
    return a failure result with the status of the response and
    ["Unknown error"]; the text of a bare string is not used. *)
Theorem bare_body_gives_unknown_error (j : json) :
  Response.json response = Some j ->
  j <> JNull ->
  (forall props, j <> JObj props) ->
  Response.status response <> 200 ->
  Response.status response <> 201 ->
  (forall sortBy page,
     fst (run (DatabaseRecordClient.fetch env sortBy page))
     = Returned (MultiRecordResult.asErrorResult (Response.status response)
                   (JStr "Unknown error")))
  /\ (forall id,
        fst (run (DatabaseRecordClient.get env id))
        = Returned (SingleRecordResult.asErrorResult (Response.status response)
                      (JStr "Unknown error")))
  /\ (forall r,
        fst (run (DatabaseRecordClient.post env r))
        = Returned (SingleRecordResult.asErrorResult (Response.status response)
                      (JStr "Unknown error")))
  /\ (forall r,
        fst (run (DatabaseRecordClient.put env r))
        = Returned (SingleRecordResult.asErrorResult (Response.status response)
                      (JStr "Unknown error"))).
Proof.
  intros Hjson Hnull Hobj H200 H201. apply Z.eqb_neq in H200, H201.
  repeat split; intros; richer_run; rewrite Hjson, H200, ?H201;
    destruct j; try reflexivity; try congruence;
    now contradiction (Hobj props).
Qed.

End MoreResults.

(** ** More of the simpler client *)

Section SimplerRequests.
Context {T : Type} {record_T : DatabaseRecord T} {client_T : RecordClient T}.
Variable env : Env.

Lemma offTheWire_ret {A} (a : A) : offTheWire (ret a).
Proof. intros tr. reflexivity. Qed.

Lemma offTheWire_lift {A} (o : Outcome A) : offTheWire (lift o).
Proof. intros tr. reflexivity. Qed.

Lemma offTheWire_console_error msg : offTheWire (console_error msg).
Proof.
  intros tr. unfold console_error. simpl.
  rewrite requests_app. simpl. apply app_nil_r.
Qed.

Lemma offTheWire_bind {A B} (m : M A) (k : A -> M B) :
  offTheWire m -> (forall a, offTheWire (k a)) -> offTheWire (bind m k).
Proof.
  intros Hm Hk tr. unfold bind.
  specialize (Hm tr). destruct (m tr) as [[a | e] tr']; simpl in *.
  - now rewrite Hk.
  - exact Hm.
Qed.

(** Closes [offTheWire m] for a computation built from binds, lifts,
    diagnostics and case distinctions. *)
Ltac wireless :=
  repeat first
    [ apply offTheWire_ret
    | apply offTheWire_lift
    | apply offTheWire_console_error
    | apply offTheWire_bind; [| intro]
    | match goal with
      | |- offTheWire (match ?x with _ => _ end) => destruct x
      | |- offTheWire (if ?b then _ else _) => destruct b
      | |- offTheWire (let _ := _ in _) => cbv zeta
      end ].

Lemma requests_after_fetch {A} (url : string) (init : RequestInit)
    (k : Response.t -> M A) tr :
  (forall response, offTheWire (k response)) ->
  requests (snd (bind (Runtime.fetch env url init) k tr))
  = (requests tr ++ [(url, init)])%list.
Proof.
  intros Hk. unfold bind, Runtime.fetch.
  destruct (network env url init) as [response |]; simpl.
  - rewrite Hk, requests_app. reflexivity.
  - rewrite requests_app. reflexivity.
Qed.

(** X13.  Each operation of the simpler client sends exactly one request,
    whatever comes back: [fetch] a GET to the domain plus the endpoint,
    with no query string; [get], for an id that is a safe integer, a GET to
    the domain, the endpoint, the id in decimal digits and a slash; [post]
    a POST to the domain plus the endpoint and [put], for a record whose id
    is a safe integer, a PUT to the domain, the endpoint, the id of the
    record in decimal digits and a slash, both with the record as JSON; all
    four carry the token. *)
Theorem simpler_client_sends_one_request :
  requests (snd (run (APIClient.fetch env)))
  = [(collectionUrl env, readInit env)]
  /\ (forall id,
        safeInteger id ->
        requests (snd (run (APIClient.get env id)))
        = [(optionToString (NEXT_PUBLIC_BACKEND_DOMAIN env) ++ getEndpoint
            ++ numberToString id ++ "/",
            readInit env)]
        /\ numeralValue (numberToString id) = Some id)
  /\ (forall r,
        requests (snd (run (APIClient.post env r)))
        = [(collectionUrl env, writeInit env "POST" r)])
  /\ (forall r,
        safeInteger (id r) ->
        requests (snd (run (APIClient.put env r)))
        = [(optionToString (NEXT_PUBLIC_BACKEND_DOMAIN env) ++ getEndpoint
            ++ numberToString (id r) ++ "/",
            writeInit env "PUT" r)]
        /\ numeralValue (numberToString (id r)) = Some (id r)).
Proof.
  repeat split; intros; try apply numeralValue_numberToString;
    unfold run, APIClient.fetch, APIClient.get, APIClient.post, APIClient.put;
    cbv zeta; rewrite api_bind_getAccessToken;
    (rewrite requests_after_fetch; [| intro; wireless]);
    simpl; rewrite requests_sessionTrace; reflexivity.
Qed.

(** X14.  The simpler client catches nothing: when the network fails,
    [fetch], [get], [post] and [put] all throw the rejection of the
    request instead of returning a sentinel. *)
Theorem simpler_client_throws_offline :
  (forall url init, network env url init = None) ->
  fst (run (APIClient.fetch env)) = Threw NetworkError
  /\ (forall id, fst (run (APIClient.get env id)) = Threw NetworkError)
  /\ (forall r, fst (run (APIClient.post env r)) = Threw NetworkError)
  /\ (forall r, fst (run (APIClient.put env r)) = Threw NetworkError).
Proof.
  intros Hnet. repeat split; intros;
    unfold run, APIClient.fetch, APIClient.get, APIClient.post, APIClient.put;
    cbv zeta; rewrite api_bind_getAccessToken;
    now rewrite bind_fetch_failed by apply Hnet.
Qed.

Lemma appending_ret {A} (a : A) : appending (ret a).
Proof. intros tr. exists []. simpl. now rewrite app_nil_r. Qed.

Lemma appending_lift {A} (o : Outcome A) : appending (lift o).
Proof. intros tr. exists []. simpl. now rewrite app_nil_r. Qed.

Lemma appending_console_error msg : appending (console_error msg).
Proof. intros tr. eexists. reflexivity. Qed.

Lemma appending_bind {A B} (m : M A) (k : A -> M B) :
  appending m -> (forall a, appending (k a)) -> appending (bind m k).
Proof.
  intros Hm Hk tr. unfold bind.
  destruct (Hm tr) as [rest Hrest].
  destruct (m tr) as [[a | e] tr']; simpl in *; subst.
  - destruct (Hk a (tr ++ rest)%list) as [rest' Hrest'].
    exists (rest ++ rest')%list. now rewrite Hrest', app_assoc.
  - now exists rest.
Qed.

(** Closes [appending m] for a computation built from binds, lifts,
    diagnostics and case distinctions. *)
Ltac growing :=
  repeat first
    [ apply appending_ret
    | apply appending_lift
    | apply appending_console_error
    | apply appending_bind; [| intro]
    | match goal with
      | |- appending (match ?x with _ => _ end) => destruct x
      | |- appending (if ?b then _ else _) => destruct b
      | |- appending (let _ := _ in _) => cbv zeta
      end ].

Lemma trace_after_fetch {A} (url : string) (init : RequestInit)
    (k : Response.t -> M A) tr :
  (forall response, appending (k response)) ->
  exists rest,
    snd (bind (Runtime.fetch env url init) k tr)
    = (tr ++ HttpRequest url init :: rest)%list.
Proof.
  intros Hk. unfold bind, Runtime.fetch.
  destruct (network env url init) as [response |]; simpl.
  - destruct (Hk response (tr ++ [HttpRequest url init])%list) as [rest Hrest].
    exists rest. rewrite Hrest, <- app_assoc. reflexivity.
  - exists []. reflexivity.
Qed.

(** X15.  Without a session the simpler client does not give up either:
    each operation logs ["Could not get session"] first and then sends its
    request, with the header [Authorization: Token ] and nothing after the
    space. *)
Theorem simpler_client_proceeds_without_session :
  getSession env = None ->
  (exists init rest,
     snd (run (APIClient.fetch env))
     = ConsoleError "Could not get session"
       :: HttpRequest (collectionUrl env) init :: rest
     /\ In ("Authorization", "Token ") (headers init))
  /\ (forall id, exists init rest,
        snd (run (APIClient.get env id))
        = ConsoleError "Could not get session"
          :: HttpRequest (recordUrl env id) init :: rest
        /\ In ("Authorization", "Token ") (headers init))
  /\ (forall r, exists init rest,
        snd (run (APIClient.post env r))
        = ConsoleError "Could not get session"
          :: HttpRequest (collectionUrl env) init :: rest
        /\ In ("Authorization", "Token ") (headers init))
  /\ (forall r, exists init rest,
        snd (run (APIClient.put env r))
        = ConsoleError "Could not get session"
          :: HttpRequest (recordUrl env (id r)) init :: rest
        /\ In ("Authorization", "Token ") (headers init)).
Proof.
  intros Hnone.
  assert (Htr : sessionTrace env = [ConsoleError "Could not get session"])
    by (unfold sessionTrace; now rewrite Hnone).
  assert (Htok : tokenOf env = "") by (unfold tokenOf; now rewrite Hnone).
  repeat split; intros;
    unfold run, APIClient.fetch, APIClient.get, APIClient.post, APIClient.put;
    cbv zeta; rewrite api_bind_getAccessToken, Htr, Htok;
    match goal with
    | |- context [bind (Runtime.fetch env ?url ?init) ?k ?tr] =>
        destruct (trace_after_fetch url init k tr) as [rest Hrest];
        [intro; growing | exists init, rest; rewrite Hrest]
    end;
    (split; [reflexivity | simpl; auto]).
Qed.

End SimplerRequests.

Section SimplerOutcomes.
Context {T : Type} {record_T : DatabaseRecord T} {client_T : RecordClient T}.
Variable env : Env.
Variable response : Response.t.
Hypothesis Hnet : forall url init, network env url init = Some response.

(** The simpler client up to the response. *)
Ltac simpler_run :=
  unfold run, APIClient.fetch, APIClient.get, APIClient.post, APIClient.put;
  cbv zeta;
  rewrite api_bind_getAccessToken;
  rewrite (bind_fetch_answered env _ _ response) by apply Hnet;
  unfold awaitJson, console_error, bind, lift, ret.

(** X16.  On success [post] and [put] of the simpler client return the
    document of the response as it is: [parse] plays no part, so the
    caller receives the server's fields unconverted, whatever the client's
    [parse] would have made of them. *)
Theorem simpler_post_put_return_the_document (r : T) (data : json) :
  Response.ok response = true ->
  Response.json response = Some data ->
  truthy data = true ->
  fst (run (APIClient.post env r)) = Returned (Some data)
  /\ fst (run (APIClient.put env r)) = Returned (Some data).
Proof.
  intros Hok Hjson Hdata.
  split; simpler_run; now rewrite Hok, Hjson, Hdata.
Qed.


Lemma api_parseEach_stops (good : list json) (records : list T) (bad : json)
    (rest : list json) (e : exn) :
  Forall2 (fun entry record => parse entry = Returned record) good records ->
  parse bad = Threw e ->
  forall acc,
    APIClient.parseEach acc (good ++ bad :: rest)%list = Threw e.
Proof.
  intros Hgood Hbad.
  induction Hgood as [| entry record good records Hparse _ IH]; intros acc; simpl.
  - now rewrite Hbad.
  - rewrite Hparse. simpl. apply IH.
Qed.

(** X18.  What [parse] throws goes through the simpler client: in
    [fetch] the exception of the first entry of [results] that does not
    parse, in [get] the exception on the body; neither turns into a
    sentinel, and [fetch] returns none of the records parsed before. *)
Theorem simpler_client_passes_on_parse_failure (e : exn) :
  Response.ok response = true ->
  (forall props good records bad rest,
     Response.json response = Some (JObj props) ->
     truthyV (assoc "detail" props) = false ->
     assoc "results" props = Some (JArr (good ++ bad :: rest)) ->
     Forall2 (fun entry record => parse entry = Returned record) good records ->
     parse bad = Threw e ->
     fst (run (APIClient.fetch env)) = Threw e)
  /\ (forall id data,
        Response.json response = Some data ->
        truthy data = true ->
        parse data = Threw e ->
        fst (run (APIClient.get env id)) = Threw e).
Proof.
  intros Hok. split.
  - intros props good records bad rest Hjson Hdetail Hresults Hgood Hbad.
    simpler_run. rewrite Hok, Hjson. simpl.
    destruct (assoc "detail" props) as [d |]; simpl in Hdetail;
      rewrite ?Hdetail, Hresults; simpl;
      now rewrite (api_parseEach_stops good records bad rest e Hgood Hbad []).
  - intros id data Hjson Hdata Hparse.
    simpler_run. now rewrite Hok, Hjson, Hdata, Hparse.
Qed.

(** X19.  An OK response whose body is not JSON: all four operations of
    the simpler client throw the SyntaxError of [response.json()]; under a
    status that is not OK the body is never read. *)
Theorem simpler_client_throws_on_body_that_is_not_json :
  Response.ok response = true ->
  Response.json response = None ->
  fst (run (APIClient.fetch env)) = Threw SyntaxError
  /\ (forall id, fst (run (APIClient.get env id)) = Threw SyntaxError)
  /\ (forall r, fst (run (APIClient.post env r)) = Threw SyntaxError)
  /\ (forall r, fst (run (APIClient.put env r)) = Threw SyntaxError).
Proof.
  intros Hok Hjson.
  repeat split; intros; simpler_run; now rewrite Hok, Hjson.
Qed.

End SimplerOutcomes.

(** ** The two clients side by side *)

Section SideBySide.
Context {T : Type} {record_T : DatabaseRecord T} {client_T : RecordClient T}.
Variable env : Env.
Variable response : Response.t.
Hypothesis Hnet : forall url init, network env url init = Some response.

(** X20.  On a page answered with status 200 whose body has no truthy
    [detail] and whose [results] is an array of entries that all parse,
    the two clients return the same records in the same order: the simpler
    one bare, the richer one inside a success result. *)
Theorem clients_agree_on_a_page (props : list (string * json))
    (entries : list json) (records : list T) :
  Response.status response = 200 ->
  Response.json response = Some (JObj props) ->
  truthyV (assoc "detail" props) = false ->
  assoc "results" props = Some (JArr entries) ->
  Forall2 (fun entry record => parse entry = Returned record) entries records ->
  fst (run (APIClient.fetch env)) = Returned records
  /\ forall sortBy page,
       fst (run (DatabaseRecordClient.fetch env sortBy page))
       = Returned (MultiRecordResult.asSuccessResult 200 records
                     (match page with Some p => p | None => 1 end)
                     (notNullish (assoc "previous" props))
                     (notNullish (assoc "next" props))).
Proof.
  intros Hstatus Hjson Hdetail Hresults Hparse. split.
  - apply api_fetch_ok with (response := response) (props := props)
      (entries := entries); auto.
    unfold Response.ok. now rewrite Hstatus.
  - intros sortBy page.
    apply fetch_ok with (response := response) (entries := entries); auto.
Qed.

End SideBySide.

(** ** The query string *)

Section QueryString.

Lemma list_ascii_of_string_app (a b : string) :
  list_ascii_of_string (a ++ b)
  = (list_ascii_of_string a ++ list_ascii_of_string b)%list.
Proof. induction a; simpl; [reflexivity | now rewrite IHa]. Qed.

Lemma encodeUnit_chars (c : ascii) :
  forallb queryChar (list_ascii_of_string (URLSearchParams.encodeUnit c)) = true.
Proof. destruct c as [[] [] [] [] [] [] [] []]; reflexivity. Qed.

Lemma encode_chars (s : string) :
  forallb queryChar (list_ascii_of_string (URLSearchParams.encode s)) = true.
Proof.
  induction s as [| c s IH]; simpl; [reflexivity |].
  rewrite list_ascii_of_string_app, forallb_app, encodeUnit_chars.
  exact IH.
Qed.

Context {T : Type} {record_T : DatabaseRecord T} {client_T : RecordClient T}.
Variable env : Env.

(** X21.  No sort field or direction can break out of its place in the
    query string of [fetch]: the URL requested is the domain, the endpoint
    and [?sortField=f&sortDir=d&page=p], where [f], [d] and [p] consist of
    ASCII letters and digits, [*], [-], [.], [_], [+] and [%] only, so
    that none of them holds an [&], [=], [#] or [?]. *)
Theorem fetch_query_values_are_inert (sortBy : SortBy) (page : option Z) :
  exists f d p init,
    requests (snd (run (DatabaseRecordClient.fetch env sortBy page)))
    = [ (optionToString (NEXT_PUBLIC_BACKEND_DOMAIN env) ++ getEndpoint
         ++ "?sortField=" ++ f ++ "&sortDir=" ++ d ++ "&page=" ++ p,
         init) ]
    /\ forallb queryChar (list_ascii_of_string f) = true
    /\ forallb queryChar (list_ascii_of_string d) = true
    /\ forallb queryChar (list_ascii_of_string p) = true
    /\ queryChar "&" = false /\ queryChar "=" = false
    /\ queryChar "#" = false /\ queryChar "?" = false.
Proof.
  exists (URLSearchParams.encode (field sortBy)),
         (URLSearchParams.encode (getDirectionAsString sortBy)),
         (URLSearchParams.encode
            (numberToString (match page with Some p => p | None => 1 end))),
         (readInit env).
  rewrite fetch_trace, requests_app, requests_sessionTrace.
  split; [reflexivity |].
  rewrite !encode_chars. repeat split.
Qed.

End QueryString.

(** ** The further properties at work on the project client *)

Section MoreRuns.
Import ProjectClient ProjectResponses.

Lemma result_carries_response_status_witness :
  fst (run (DatabaseRecordClient.fetch (answering forbidden) byDateDesc None))
  = Returned (MultiRecordResult.asErrorResult (T := Project) 403
                (JStr "Invalid token."))
  /\ multiStatus (MultiRecordResult.asErrorResult (T := Project) 403
                    (JStr "Invalid token."))
     = Response.status forbidden.
Proof.
  split; [reflexivity |].
  apply (proj1 (result_carries_response_status (T := Project) (record_T := project_record) (client_T := project_client)
                  (answering forbidden) forbidden (fun _ _ => eq_refl))
           byDateDesc None).
  reflexivity.
Defined.

Lemma success_only_under_200_or_201_witness :
  fst (run (DatabaseRecordClient.post (answering created) house))
  = Returned (SingleRecordResult.asSuccessResult 201 house)
  /\ (Response.status created = 200 \/ Response.status created = 201).
Proof.
  split; [reflexivity |].
  destruct (success_only_under_200_or_201 (T := Project) (record_T := project_record) (client_T := project_client)
              (answering created) created (fun _ _ => eq_refl))
    as (_ & _ & Hpost & _).
  apply (Hpost house (SingleRecordResult.asSuccessResult 201 house));
    reflexivity.
Defined.

Lemma refusal_message_precedence_witness :
  fst (run (DatabaseRecordClient.put (answering emptyDetail) house))
  = Returned (SingleRecordResult.asErrorResult 400 (JStr "Name is required.")).
Proof.
  assert (Hcase :
    truthyV (assoc "detail"
               [("detail", JStr ""); ("details", JArr [JStr "Name is required."])])
    = false
    /\ exists rest,
         assoc "details"
           [("detail", JStr ""); ("details", JArr [JStr "Name is required."])]
         = Some (JArr (JStr "Name is required." :: rest)))
    by (split; [reflexivity | now exists []]).
  apply (refusal_message_precedence (T := Project) (record_T := project_record) (client_T := project_client)
           (answering emptyDetail) emptyDetail (fun _ _ => eq_refl)
           [("detail", JStr ""); ("details", JArr [JStr "Name is required."])]
           (JStr "Name is required.") eq_refl
           ltac:(discriminate) ltac:(discriminate)
           (or_intror (or_introl Hcase))).
Defined.

Lemma get_refusal_message_witness :
  fst (run (DatabaseRecordClient.get (answering emptyDetail) 7))
  = Returned (SingleRecordResult.asErrorResult (T := Project) 400 (JStr "")).
Proof.
  apply (proj1 (get_refusal_message (T := Project) (client_T := project_client)
                  (answering emptyDetail) emptyDetail (fun _ _ => eq_refl) 7
                  [("detail", JStr "");
                   ("details", JArr [JStr "Name is required."])]
                  eq_refl ltac:(discriminate)));
    [reflexivity | discriminate].
Defined.

Lemma single_record_success_witness :
  fst (run (DatabaseRecordClient.post (answering created) house))
  = Returned (SingleRecordResult.asSuccessResult 201 house)
  /\ fst (run (DatabaseRecordClient.put (answering created) house))
     = Returned (SingleRecordResult.asSuccessResult 201 house).
Proof.
  apply (proj2 (single_record_success (T := Project) (record_T := project_record) (client_T := project_client)
                  (answering created) created (fun _ _ => eq_refl)
                  houseDoc house eq_refl eq_refl)).
  now right.
Defined.

Lemma fetch_fails_on_first_bad_entry_witness :
  fst (run (DatabaseRecordClient.fetch (answering brokenPage) byDateDesc None))
  = Threw (A := MultiRecordResult.t Project) (UserError "not a project").
Proof.
  assert (Hparse :
    Forall2 (fun entry record => parse entry = Returned record)
      [houseDoc] [house])
    by (constructor; [reflexivity | constructor]).
  apply (fetch_fails_on_first_bad_entry (T := Project) (client_T := project_client)
           (answering brokenPage) brokenPage (fun _ _ => eq_refl)
           byDateDesc None
           [("results", JArr [houseDoc; JNum 3; houseDoc])]
           [houseDoc] [house] (JNum 3) [houseDoc] (UserError "not a project")
           eq_refl eq_refl eq_refl Hparse eq_refl).
Defined.

Lemma body_that_is_not_json_throws_witness :
  Response.json badGateway = None
  /\ fst (run (DatabaseRecordClient.get (answering badGateway) 7))
     = Threw (A := SingleRecordResult.t Project) SyntaxError.
Proof.
  split; [reflexivity |].
  destruct (body_that_is_not_json_throws (T := Project) (record_T := project_record) (client_T := project_client)
              (answering badGateway) badGateway (fun _ _ => eq_refl) eq_refl)
    as (_ & Hget & _).
  apply Hget.
Defined.

Lemma null_body_throws_witness :
  fst (run (DatabaseRecordClient.fetch (answering nullBody) byDateDesc None))
  = Threw (A := MultiRecordResult.t Project) TypeError
  /\ fst (run (DatabaseRecordClient.get (answering nullBody) 7))
     = Threw (A := SingleRecordResult.t Project) TypeError.
Proof.
  destruct (null_body_throws (T := Project) (record_T := project_record) (client_T := project_client)
              (answering nullBody) nullBody (fun _ _ => eq_refl) eq_refl)
    as (Hfetch & Hget & _).
  split; [apply Hfetch | apply Hget; discriminate].
Defined.

Lemma bare_body_gives_unknown_error_witness :
  fst (run (DatabaseRecordClient.fetch (answering bareString) byDateDesc None))
  = Returned (MultiRecordResult.asErrorResult (T := Project) 500
                (JStr "Unknown error")).
Proof.
  apply (proj1 (bare_body_gives_unknown_error (T := Project) (record_T := project_record) (client_T := project_client)
                  (answering bareString) bareString (fun _ _ => eq_refl)
                  (JStr "Internal Server Error") eq_refl
                  ltac:(discriminate) ltac:(discriminate)
                  ltac:(discriminate) ltac:(discriminate))).
Defined.

Lemma simpler_client_throws_offline_witness :
  (forall url init, network offline url init = None)
  /\ fst (run (APIClient.put offline house)) = Threw NetworkError.
Proof.
  split; [reflexivity |].
  destruct (simpler_client_throws_offline (T := Project) offline
              (fun _ _ => eq_refl)) as (_ & _ & _ & Hput).
  apply Hput.
Defined.

Lemma simpler_client_proceeds_without_session_witness :
  getSession (signedOut lastPage) = None
  /\ exists init rest,
       snd (run (APIClient.fetch (T := Project) (signedOut lastPage)))
       = ConsoleError "Could not get session"
         :: HttpRequest "https://api.example.org/projects/" init :: rest
       /\ In ("Authorization", "Token ") (headers init).
Proof.
  split; [reflexivity |].
  apply (proj1 (simpler_client_proceeds_without_session (T := Project) (record_T := project_record) (client_T := project_client)
                  (signedOut lastPage) eq_refl)).
Defined.

Lemma simpler_post_put_return_the_document_witness :
  fst (run (APIClient.post (answering created) house)) = Returned (Some houseDoc)
  /\ fst (run (APIClient.put (answering created) house)) = Returned (Some houseDoc).
Proof.
  apply (simpler_post_put_return_the_document (T := Project) (record_T := project_record) (client_T := project_client)
           (answering created) created (fun _ _ => eq_refl) house houseDoc);
    reflexivity.
Defined.


Lemma simpler_client_passes_on_parse_failure_witness :
  fst (run (APIClient.fetch (answering brokenPage)))
  = Threw (A := list Project) (UserError "not a project").
Proof.
  assert (Hparse :
    Forall2 (fun entry record => parse entry = Returned record)
      [houseDoc] [house])
    by (constructor; [reflexivity | constructor]).
  apply (proj1 (simpler_client_passes_on_parse_failure (T := Project) (client_T := project_client)
                  (answering brokenPage) brokenPage (fun _ _ => eq_refl)
                  (UserError "not a project") eq_refl)
           [("results", JArr [houseDoc; JNum 3; houseDoc])]
           [houseDoc] [house] (JNum 3) [houseDoc]
           eq_refl eq_refl eq_refl Hparse eq_refl).
Defined.

(** An OK status over a body that is not JSON, as an empty 204 is. *)
Lemma simpler_client_throws_on_body_that_is_not_json_witness :
  fst (run (APIClient.get
              (answering {| Response.status := 204; Response.json := None |}) 7))
  = Threw (A := option Project) SyntaxError.
Proof.
  destruct (simpler_client_throws_on_body_that_is_not_json (T := Project) (record_T := project_record) (client_T := project_client)
              (answering {| Response.status := 204; Response.json := None |})
              {| Response.status := 204; Response.json := None |}
              (fun _ _ => eq_refl) eq_refl eq_refl) as (_ & Hget & _).
  apply Hget.
Defined.

Lemma clients_agree_on_a_page_witness :
  fst (run (APIClient.fetch (answering lastPage))) = Returned [house]
  /\ fst (run (DatabaseRecordClient.fetch (answering lastPage) byDateDesc (Some 2)))
     = Returned (MultiRecordResult.asSuccessResult 200 [house] 2 true false).
Proof.
  assert (Hparse :
    Forall2 (fun entry record => parse entry = Returned record)
      [houseDoc] [house])
    by (constructor; [reflexivity | constructor]).
  destruct (clients_agree_on_a_page (T := Project) (client_T := project_client)
              (answering lastPage) lastPage (fun _ _ => eq_refl)
              [("results", JArr [houseDoc]);
               ("previous", JStr "https://api.example.org/projects/?page=1");
               ("next", JNull)]
              [houseDoc] [house] eq_refl eq_refl eq_refl eq_refl Hparse)
    as (Hsimple & Hrich).
  split; [exact Hsimple | apply (Hrich byDateDesc (Some 2))].
Defined.

Lemma get_sends_one_GET_witness :
  safeInteger 3
  /\ snd (run (DatabaseRecordClient.get (answering notFound) 3))
     = [ HttpRequest "https://api.example.org/projects/3/"
           {| method := None;
              headers := [("Authorization", "Token s3cr3t")];
              body := None;
              cache := Some "no-store" |} ]
  /\ numeralValue "3" = Some 3.
Proof.
  assert (H : safeInteger 3) by (unfold safeInteger; simpl; lia).
  split; [exact H |].
  exact (get_sends_one_GET (T := Project) (client_T := project_client)
           (answering notFound) 3 H).
Defined.

Lemma simpler_client_sends_one_request_witness :
  safeInteger 7
  /\ requests (snd (run (APIClient.get (answering created) 7)))
     = [ ("https://api.example.org/projects/7/",
          {| method := None;
             headers := [("Authorization", "Token s3cr3t")];
             body := None;
             cache := Some "no-store" |}) ]
  /\ requests (snd (run (APIClient.put (answering created) house)))
     = [ ("https://api.example.org/projects/7/",
          {| method := Some "PUT";
             headers := [("Content-Type", "application/json");
                         ("Authorization", "Token s3cr3t")];
             body := Some ("{" ++ dq ++ "id" ++ dq ++ ":7," ++ dq ++ "name" ++ dq
                           ++ ":" ++ dq ++ "House" ++ dq ++ "}");
             cache := None |}) ].
Proof.
  assert (H : safeInteger 7) by (unfold safeInteger; simpl; lia).
  split; [exact H |].
  destruct (simpler_client_sends_one_request (T := Project)
              (record_T := project_record) (client_T := project_client)
              (answering created))
    as (_ & Hget & _ & Hput).
  split; [exact (proj1 (Hget 7 H)) | exact (proj1 (Hput house H))].
Defined.

End MoreRuns.
